(** * AI Poker Battle: a shallow embedding of [poker_battle.py]

    The development follows the single source file [poker_battle.py]:
    - [PyText]: the Python string operations the decision parser uses
      ([str.lower], [str.strip], the [in] operator, [re.findall(r'\d+')]);
    - [parse_ai_decision] and the raise clamp of [AIPlayer.declare_action];
    - the shared [game_state] dictionary as a record and [play_poker_hand]
      as a pipeline of steps, with the rules engine as an input;
    - [calculate_win_probabilities] over IEEE binary64 floats (Rocq's
      primitive floats), with the hand evaluator and the random sampler as
      oracles. *)

From Stdlib Require Import ZArith List Bool String Ascii Lia.
From Stdlib Require Import QArith Qabs Floats.
Import ListNotations.
Open Scope Z_scope.

(* ------------------------------------------------------------------ *)
(** ** Python text primitives *)

Module PyText.

Section Generic.
Context {A : Type} (eqb : A -> A -> bool).

(** [is_prefix p l]: [l.startswith(p)] on lists of characters. *)
Fixpoint is_prefix (p l : list A) : bool :=
  match p, l with
  | [], _ => true
  | _ :: _, [] => false
  | a :: p', x :: l' => eqb a x && is_prefix p' l'
  end.

(** [contains p l]: Python's [p in l] for strings. *)
Fixpoint contains (p l : list A) : bool :=
  is_prefix p l || match l with [] => false | _ :: l' => contains p l' end.
End Generic.

Definition code (c : ascii) : nat := nat_of_ascii c.

(** [str.lower] on ASCII characters: [A]..[Z] to [a]..[z]. *)
Definition ascii_lower (c : ascii) : ascii :=
  if (65 <=? code c)%nat && (code c <=? 90)%nat
  then ascii_of_nat (code c + 32) else c.

Definition py_lower (s : list ascii) : list ascii := map ascii_lower s.

(** [str.isspace] on ASCII characters: [\t \n \v \f \r], the separators
    [\x1c]..[\x1f] and the space. *)
Definition is_space (c : ascii) : bool :=
  ((9 <=? code c)%nat && (code c <=? 13)%nat)
  || ((28 <=? code c)%nat && (code c <=? 32)%nat).

Fixpoint lstrip (s : list ascii) : list ascii :=
  match s with
  | c :: r => if is_space c then lstrip r else s
  | [] => []
  end.

(** [str.strip()]: whitespace removed at both ends. *)
Definition py_strip (s : list ascii) : list ascii := rev (lstrip (rev (lstrip s))).

(** [str.isdigit] on ASCII characters, as [\d] matches them. *)
Definition is_digit (c : ascii) : bool := (48 <=? code c)%nat && (code c <=? 57)%nat.

Definition digit_val (c : ascii) : Z := Z.of_nat (code c) - 48.

(** [int(...)] of the maximal run of digits at the head of the text. *)
Fixpoint take_digits (acc : Z) (l : list ascii) : Z :=
  match l with
  | c :: r => if is_digit c then take_digits (acc * 10 + digit_val c) r else acc
  | [] => acc
  end.

(** [re.findall(r'\d+', t)[0]] converted by [int], or [None] when the
    list of matches is empty. *)
Fixpoint first_number (l : list ascii) : option Z :=
  match l with
  | c :: r => if is_digit c then Some (take_digits 0 l) else first_number r
  | [] => None
  end.

Definition lit (s : string) : list ascii := list_ascii_of_string s.

Definition has (p : string) (t : list ascii) : bool := contains Ascii.eqb (lit p) t.

End PyText.

Import PyText.

(* ------------------------------------------------------------------ *)
(** ** Decision adapter: parsing and clamping *)

Inductive ActionKind := AFold | ACall | ARaise.

(** [parse_ai_decision(response_text)], for ASCII response texts. *)
Definition parse_ai_decision (response_text : string) : ActionKind * Z :=
  let t := py_strip (py_lower (lit response_text)) in
  if has "fold" t then (AFold, 0)
  else if has "call" t then (ACall, 0)
  else if has "raise" t || has "bet" t then
    match first_number t with
    | Some amount => (ARaise, amount)
    | None => (ARaise, 20)
    end
  else (ACall, 0).

(** The parsing rule as the specification words it: an ordered scan of the
    lowercased text. *)
Definition parse_ai_decision_spec (response_text : string) : ActionKind * Z :=
  let t := py_lower (lit response_text) in
  if has "fold" t then (AFold, 0)
  else if has "call" t then (ACall, 0)
  else if has "raise" t || has "bet" t then
    (ARaise, match first_number t with Some n => n | None => 20 end)
  else (ACall, 0).

(** The legal actions the rules engine hands to [declare_action]:
    [{'action': 'fold', 'amount': 0}], [{'action': 'call', 'amount': a}]
    and [{'action': 'raise', 'amount': {'min': mn, 'max': mx}}]. *)
Inductive ValidAction :=
| VFold
| VCall (amount : Z)
| VRaise (mn mx : Z).

Definition action_of (va : ValidAction) : ActionKind :=
  match va with VFold => AFold | VCall _ => ACall | VRaise _ _ => ARaise end.

Definition ActionKind_eqb (a b : ActionKind) : bool :=
  match a, b with
  | AFold, AFold | ACall, ACall | ARaise, ARaise => true
  | _, _ => false
  end.

(** The raise clamp of [declare_action] (lines 401-413): the two [if]s
    of the source, then the safety check on a negative amount. *)
Definition clamp_raise (amount mn mx : Z) : ActionKind * Z :=
  let min_amount := Z.max 20 mn in
  let max_amount := mx in
  let amount := if amount <? min_amount then min_amount else amount in
  let amount := if amount >? max_amount then max_amount else amount in
  if amount <? 0 then (ACall, 0) else (ARaise, amount).

(** The value [declare_action] returns once the parsed decision is known
    (lines 397-474): the first legal action of the parsed kind decides;
    without one, [call] when it is legal and [fold] otherwise. The log,
    action-history and display writes of these branches are not modelled. *)
Definition resolve_action (valid_actions : list ValidAction)
    (parsed : ActionKind * Z) : ActionKind * Z :=
  let '(action_type, amount) := parsed in
  match find (fun va => ActionKind_eqb (action_of va) action_type) valid_actions with
  | Some (VRaise mn mx) => clamp_raise amount mn mx
  | Some (VCall a) => (ACall, a)
  | Some VFold => (AFold, 0)
  | None =>
      if existsb (fun va => ActionKind_eqb (action_of va) ACall) valid_actions
      then (ACall, 0) else (AFold, 0)
  end.

(** The decision of one seat: the external completion, when it answers,
    is parsed and resolved; a failed call ([None]) is a fold. *)
Definition declare_action (valid_actions : list ValidAction)
    (completion : option string) : ActionKind * Z :=
  match completion with
  | Some decision_text => resolve_action valid_actions (parse_ai_decision decision_text)
  | None => (AFold, 0)
  end.

(* ------------------------------------------------------------------ *)
(** ** The shared [game_state] and [play_poker_hand] *)

Module Lifecycle.

Inductive Seat := Claude | GPT.

Definition other (p : Seat) : Seat := match p with Claude => GPT | GPT => Claude end.

Inductive Round := RWaiting | RPreflop | RError | RCountdown | RHandPause.

(** A [hand_history] entry; the card lists and the hand description
    (display text) are left out. *)
Record HandRecord := {
  hr_hand_number : Z;
  hr_winner : option Seat;
  hr_pot : Z }.

(** A [stack_history] entry [{'hand', 'claude', 'gpt'}]. *)
Record StackPoint := {
  sp_hand : Z;
  sp_claude : Z;
  sp_gpt : Z }.

(** The log lines the lifecycle writes that matter here; the other log
    lines are display text and are left out. *)
Inductive LogEntry :=
| LogBusted (who : Seat) (stack big_blind : Z)
| LogGameWon (who : Seat)
| LogChipWarning (total : Z).

(** The entries of [game_state] that [play_poker_hand] reads or writes and
    that outlive a hand. [winner] is [''] ([None]), ['Claude'] or ['GPT'].
    The per-hand display entries (cards, action labels, thinking flags,
    equities) are reset at the start of each hand and not modelled. *)
Record GameState := {
  hand_number : Z;
  total_hands : Z;
  current_game_hands : Z;
  round : Round;
  pot : Z;
  claude_stack : Z;
  gpt_stack : Z;
  winner : option Seat;
  dealer : Seat;
  wait_for_new_game : bool;
  claude_wins : Z;
  gpt_wins : Z;
  claude_games_won : Z;
  gpt_games_won : Z;
  biggest_pot : Z;
  total_allins : Z;
  game_pots : list Z;
  longest_game : Z;
  shortest_game : Z;
  hand_history : list HandRecord;
  stack_history : list StackPoint;
  claude_streak : Z;
  gpt_streak : Z;
  logs : list LogEntry }.

(** The initial [game_state]. *)
Definition initial_state : GameState := {|
  hand_number := 0; total_hands := 0; current_game_hands := 0;
  round := RWaiting; pot := 0; claude_stack := 1000; gpt_stack := 1000;
  winner := None; dealer := Claude; wait_for_new_game := false;
  claude_wins := 0; gpt_wins := 0; claude_games_won := 0; gpt_games_won := 0;
  biggest_pot := 0; total_allins := 0; game_pots := [];
  longest_game := 0; shortest_game := 0; hand_history := []; stack_history := [];
  claude_streak := 0; gpt_streak := 0; logs := [] |}.

(** Lines 500-534: counters incremented, per-hand fields reset, dealer
    alternated. *)
Definition begin_hand (s : GameState) : GameState := {|
  hand_number := s.(hand_number) + 1; total_hands := s.(total_hands) + 1;
  current_game_hands := s.(current_game_hands) + 1;
  round := RPreflop; pot := 0;
  claude_stack := s.(claude_stack); gpt_stack := s.(gpt_stack);
  winner := None; dealer := other s.(dealer);
  wait_for_new_game := s.(wait_for_new_game);
  claude_wins := s.(claude_wins); gpt_wins := s.(gpt_wins);
  claude_games_won := s.(claude_games_won); gpt_games_won := s.(gpt_games_won);
  biggest_pot := s.(biggest_pot); total_allins := s.(total_allins);
  game_pots := s.(game_pots); longest_game := s.(longest_game);
  shortest_game := s.(shortest_game); hand_history := s.(hand_history);
  stack_history := s.(stack_history); claude_streak := s.(claude_streak);
  gpt_streak := s.(gpt_streak); logs := s.(logs) |}.

(** Lines 537-539: [(blind_level, small_blind, big_blind)]; [//] on the
    non-negative hand numbers is [Z.div]. *)
Definition blinds (hand_no : Z) : Z * Z * Z :=
  let blind_level := hand_no / 10 in
  let small_blind := 5 + blind_level * 5 in
  let big_blind := small_blind * 2 in
  (blind_level, small_blind, big_blind).

Definition small_blind_of (n : Z) : Z := snd (fst (blinds n)).
Definition big_blind_of (n : Z) : Z := snd (blinds n).

(** [add_log(message)]. *)
Definition add_log (e : LogEntry) (s : GameState) : GameState := {|
  hand_number := s.(hand_number); total_hands := s.(total_hands);
  current_game_hands := s.(current_game_hands);
  round := s.(round); pot := s.(pot);
  claude_stack := s.(claude_stack); gpt_stack := s.(gpt_stack);
  winner := s.(winner); dealer := s.(dealer);
  wait_for_new_game := s.(wait_for_new_game);
  claude_wins := s.(claude_wins); gpt_wins := s.(gpt_wins);
  claude_games_won := s.(claude_games_won); gpt_games_won := s.(gpt_games_won);
  biggest_pot := s.(biggest_pot); total_allins := s.(total_allins);
  game_pots := s.(game_pots); longest_game := s.(longest_game);
  shortest_game := s.(shortest_game); hand_history := s.(hand_history);
  stack_history := s.(stack_history); claude_streak := s.(claude_streak);
  gpt_streak := s.(gpt_streak); logs := s.(logs) ++ [e] |}.

(** Seat [p]'s stack set to [v]. *)
Definition set_stack (p : Seat) (v : Z) (s : GameState) : GameState := {|
  hand_number := s.(hand_number); total_hands := s.(total_hands);
  current_game_hands := s.(current_game_hands);
  round := s.(round); pot := s.(pot);
  claude_stack := match p with Claude => v | GPT => s.(claude_stack) end;
  gpt_stack := match p with GPT => v | Claude => s.(gpt_stack) end;
  winner := s.(winner); dealer := s.(dealer);
  wait_for_new_game := s.(wait_for_new_game);
  claude_wins := s.(claude_wins); gpt_wins := s.(gpt_wins);
  claude_games_won := s.(claude_games_won); gpt_games_won := s.(gpt_games_won);
  biggest_pot := s.(biggest_pot); total_allins := s.(total_allins);
  game_pots := s.(game_pots); longest_game := s.(longest_game);
  shortest_game := s.(shortest_game); hand_history := s.(hand_history);
  stack_history := s.(stack_history); claude_streak := s.(claude_streak);
  gpt_streak := s.(gpt_streak); logs := s.(logs) |}.

(** [<p>_games_won += 1] and the "WINS THE GAME" log line. *)
Definition credit_game (p : Seat) (s : GameState) : GameState := {|
  hand_number := s.(hand_number); total_hands := s.(total_hands);
  current_game_hands := s.(current_game_hands);
  round := s.(round); pot := s.(pot);
  claude_stack := s.(claude_stack); gpt_stack := s.(gpt_stack);
  winner := s.(winner); dealer := s.(dealer);
  wait_for_new_game := s.(wait_for_new_game);
  claude_wins := s.(claude_wins); gpt_wins := s.(gpt_wins);
  claude_games_won := s.(claude_games_won) + match p with Claude => 1 | GPT => 0 end;
  gpt_games_won := s.(gpt_games_won) + match p with GPT => 1 | Claude => 0 end;
  biggest_pot := s.(biggest_pot); total_allins := s.(total_allins);
  game_pots := s.(game_pots); longest_game := s.(longest_game);
  shortest_game := s.(shortest_game); hand_history := s.(hand_history);
  stack_history := s.(stack_history); claude_streak := s.(claude_streak);
  gpt_streak := s.(gpt_streak); logs := s.(logs) ++ [LogGameWon p] |}.

(** "Track game length for stats" (lines 551-555, 580-584, 752-756). *)
Definition track_game_length (s : GameState) : GameState :=
  let n := s.(current_game_hands) in
  if 0 <? n then {|
    hand_number := s.(hand_number); total_hands := s.(total_hands);
    current_game_hands := n;
    round := s.(round); pot := s.(pot);
    claude_stack := s.(claude_stack); gpt_stack := s.(gpt_stack);
    winner := s.(winner); dealer := s.(dealer);
    wait_for_new_game := s.(wait_for_new_game);
    claude_wins := s.(claude_wins); gpt_wins := s.(gpt_wins);
    claude_games_won := s.(claude_games_won); gpt_games_won := s.(gpt_games_won);
    biggest_pot := s.(biggest_pot); total_allins := s.(total_allins);
    game_pots := s.(game_pots);
    longest_game :=
      if (s.(longest_game) =? 0) || (n >? s.(longest_game)) then n else s.(longest_game);
    shortest_game :=
      if (s.(shortest_game) =? 0) || (n <? s.(shortest_game)) then n else s.(shortest_game);
    hand_history := s.(hand_history);
    stack_history := s.(stack_history); claude_streak := s.(claude_streak);
    gpt_streak := s.(gpt_streak); logs := s.(logs) |}
  else s.

(** "Reset for new game" after a pre-hand bust (lines 560-570). *)
Definition reset_before_hand (s : GameState) : GameState := {|
  hand_number := s.(hand_number); total_hands := s.(total_hands);
  current_game_hands := 0;
  round := s.(round); pot := s.(pot);
  claude_stack := 1000; gpt_stack := 1000;
  winner := s.(winner); dealer := s.(dealer);
  wait_for_new_game := true;
  claude_wins := 0; gpt_wins := 0;
  claude_games_won := s.(claude_games_won); gpt_games_won := s.(gpt_games_won);
  biggest_pot := 0; total_allins := 0;
  game_pots := []; longest_game := s.(longest_game);
  shortest_game := s.(shortest_game); hand_history := [];
  stack_history := []; claude_streak := s.(claude_streak);
  gpt_streak := s.(gpt_streak); logs := s.(logs) |}.

(** "Reset for new game" after a post-hand bust (lines 761-775). *)
Definition reset_after_hand (s : GameState) : GameState := {|
  hand_number := s.(hand_number); total_hands := s.(total_hands);
  current_game_hands := 0;
  round := s.(round); pot := s.(pot);
  claude_stack := 1000; gpt_stack := 1000;
  winner := s.(winner); dealer := s.(dealer);
  wait_for_new_game := true;
  claude_wins := 0; gpt_wins := 0;
  claude_games_won := s.(claude_games_won); gpt_games_won := s.(gpt_games_won);
  biggest_pot := 0; total_allins := 0;
  game_pots := []; longest_game := s.(longest_game);
  shortest_game := s.(shortest_game); hand_history := [];
  stack_history := []; claude_streak := 0;
  gpt_streak := 0; logs := s.(logs) |}.

Definition stack_of (p : Seat) (s : GameState) : Z :=
  match p with Claude => s.(claude_stack) | GPT => s.(gpt_stack) end.

(** Lines 544-600: seat [loser] cannot pay the big blind [big_blind]. *)
Definition bust_before_hand (loser : Seat) (big_blind : Z) (s : GameState) : GameState :=
  let s := add_log (LogBusted loser (stack_of loser s) big_blind) s in
  let s := set_stack loser 0 s in
  let s := credit_game (other loser) s in
  let s := track_game_length s in
  reset_before_hand s.

(** What one call of the rules engine ([start_poker]) leaves behind. While
    it runs, the engine calls [declare_action], which writes the pot it
    sees into [game_state['pot']] and counts the raises it classifies as
    all-in into [game_state['total_allins']]; the call then returns the
    final stacks [(Claude, GPT)], or raises ([None]). *)
Record EngineRun := {
  run_pot : Z;
  run_allins : Z;
  run_result : option (Z * Z) }.

(** The rules engine, called with [initial_stack] and [small_blind_amount]. *)
Definition Engine := Z -> Z -> EngineRun.

Definition observe_run (r : EngineRun) (s : GameState) : GameState := {|
  hand_number := s.(hand_number); total_hands := s.(total_hands);
  current_game_hands := s.(current_game_hands);
  round := s.(round); pot := r.(run_pot);
  claude_stack := s.(claude_stack); gpt_stack := s.(gpt_stack);
  winner := s.(winner); dealer := s.(dealer);
  wait_for_new_game := s.(wait_for_new_game);
  claude_wins := s.(claude_wins); gpt_wins := s.(gpt_wins);
  claude_games_won := s.(claude_games_won); gpt_games_won := s.(gpt_games_won);
  biggest_pot := s.(biggest_pot); total_allins := s.(total_allins) + r.(run_allins);
  game_pots := s.(game_pots); longest_game := s.(longest_game);
  shortest_game := s.(shortest_game); hand_history := s.(hand_history);
  stack_history := s.(stack_history); claude_streak := s.(claude_streak);
  gpt_streak := s.(gpt_streak); logs := s.(logs) |}.

(** Lines 624-637: excess over [min_stack] re-added to the engine's final
    stacks, and the total checked against 2000. *)
Definition settle (min_stack : Z) (final : Z * Z) (s : GameState) : GameState :=
  let claude_excess := s.(claude_stack) - min_stack in
  let gpt_excess := s.(gpt_stack) - min_stack in
  let cs := fst final + claude_excess in
  let gs := snd final + gpt_excess in
  let total := cs + gs in
  {| hand_number := s.(hand_number); total_hands := s.(total_hands);
     current_game_hands := s.(current_game_hands);
     round := s.(round); pot := s.(pot);
     claude_stack := cs; gpt_stack := gs;
     winner := s.(winner); dealer := s.(dealer);
     wait_for_new_game := s.(wait_for_new_game);
     claude_wins := s.(claude_wins); gpt_wins := s.(gpt_wins);
     claude_games_won := s.(claude_games_won); gpt_games_won := s.(gpt_games_won);
     biggest_pot := s.(biggest_pot); total_allins := s.(total_allins);
     game_pots := s.(game_pots); longest_game := s.(longest_game);
     shortest_game := s.(shortest_game); hand_history := s.(hand_history);
     stack_history := s.(stack_history); claude_streak := s.(claude_streak);
     gpt_streak := s.(gpt_streak);
     logs := if Z.abs (total - 2000) >? 1 then s.(logs) ++ [LogChipWarning total]
             else s.(logs) |}.

(** Lines 640-645: biggest pot and the list of pots. *)
Definition record_pots (s : GameState) : GameState := {|
  hand_number := s.(hand_number); total_hands := s.(total_hands);
  current_game_hands := s.(current_game_hands);
  round := s.(round); pot := s.(pot);
  claude_stack := s.(claude_stack); gpt_stack := s.(gpt_stack);
  winner := s.(winner); dealer := s.(dealer);
  wait_for_new_game := s.(wait_for_new_game);
  claude_wins := s.(claude_wins); gpt_wins := s.(gpt_wins);
  claude_games_won := s.(claude_games_won); gpt_games_won := s.(gpt_games_won);
  biggest_pot := if s.(pot) >? s.(biggest_pot) then s.(pot) else s.(biggest_pot);
  total_allins := s.(total_allins);
  game_pots := if s.(pot) >? 0 then s.(game_pots) ++ [s.(pot)] else s.(game_pots);
  longest_game := s.(longest_game);
  shortest_game := s.(shortest_game); hand_history := s.(hand_history);
  stack_history := s.(stack_history); claude_streak := s.(claude_streak);
  gpt_streak := s.(gpt_streak); logs := s.(logs) |}.

(** Lines 694-703: winner and streaks. *)
Definition record_winner (s : GameState) : GameState :=
  let claude_won := s.(claude_stack) >? s.(gpt_stack) in
  {| hand_number := s.(hand_number); total_hands := s.(total_hands);
     current_game_hands := s.(current_game_hands);
     round := s.(round); pot := s.(pot);
     claude_stack := s.(claude_stack); gpt_stack := s.(gpt_stack);
     winner := Some (if claude_won then Claude else GPT); dealer := s.(dealer);
     wait_for_new_game := s.(wait_for_new_game);
     claude_wins := if claude_won then s.(claude_wins) + 1 else s.(claude_wins);
     gpt_wins := if claude_won then s.(gpt_wins) else s.(gpt_wins) + 1;
     claude_games_won := s.(claude_games_won); gpt_games_won := s.(gpt_games_won);
     biggest_pot := s.(biggest_pot); total_allins := s.(total_allins);
     game_pots := s.(game_pots); longest_game := s.(longest_game);
     shortest_game := s.(shortest_game); hand_history := s.(hand_history);
     stack_history := s.(stack_history);
     claude_streak := if claude_won then s.(claude_streak) + 1 else 0;
     gpt_streak := if claude_won then 0 else s.(gpt_streak) + 1;
     logs := s.(logs) |}.

(** Lines 719-739: [hand_history.insert(0, ...)] then one [pop()] past 5
    entries; [stack_history.append(...)] then one [pop(0)] past 10. *)
Definition record_history (s : GameState) : GameState :=
  let hh := {| hr_hand_number := s.(hand_number); hr_winner := s.(winner);
               hr_pot := s.(pot) |} :: s.(hand_history) in
  let sh := s.(stack_history) ++ [{| sp_hand := s.(hand_number);
                                     sp_claude := s.(claude_stack);
                                     sp_gpt := s.(gpt_stack) |}] in
  {| hand_number := s.(hand_number); total_hands := s.(total_hands);
     current_game_hands := s.(current_game_hands);
     round := s.(round); pot := s.(pot);
     claude_stack := s.(claude_stack); gpt_stack := s.(gpt_stack);
     winner := s.(winner); dealer := s.(dealer);
     wait_for_new_game := s.(wait_for_new_game);
     claude_wins := s.(claude_wins); gpt_wins := s.(gpt_wins);
     claude_games_won := s.(claude_games_won); gpt_games_won := s.(gpt_games_won);
     biggest_pot := s.(biggest_pot); total_allins := s.(total_allins);
     game_pots := s.(game_pots); longest_game := s.(longest_game);
     shortest_game := s.(shortest_game);
     hand_history := if Nat.ltb 5 (List.length hh) then removelast hh else hh;
     stack_history := if Nat.ltb 10 (List.length sh) then tl sh else sh;
     claude_streak := s.(claude_streak);
     gpt_streak := s.(gpt_streak); logs := s.(logs) |}.

(** Lines 742-775: the game ends when a stack is [<= 0] after the hand. *)
Definition check_game_over (s : GameState) : GameState :=
  if (s.(claude_stack) <=? 0) || (s.(gpt_stack) <=? 0) then
    let s := credit_game (if s.(claude_stack) >? 0 then Claude else GPT) s in
    let s := track_game_length s in
    reset_after_hand s
  else s.

(** [game_state['round'] = 'error'] in the handler of lines 777-782. *)
Definition set_round (r : Round) (s : GameState) : GameState := {|
  hand_number := s.(hand_number); total_hands := s.(total_hands);
  current_game_hands := s.(current_game_hands);
  round := r; pot := s.(pot);
  claude_stack := s.(claude_stack); gpt_stack := s.(gpt_stack);
  winner := s.(winner); dealer := s.(dealer);
  wait_for_new_game := s.(wait_for_new_game);
  claude_wins := s.(claude_wins); gpt_wins := s.(gpt_wins);
  claude_games_won := s.(claude_games_won); gpt_games_won := s.(gpt_games_won);
  biggest_pot := s.(biggest_pot); total_allins := s.(total_allins);
  game_pots := s.(game_pots); longest_game := s.(longest_game);
  shortest_game := s.(shortest_game); hand_history := s.(hand_history);
  stack_history := s.(stack_history); claude_streak := s.(claude_streak);
  gpt_streak := s.(gpt_streak); logs := s.(logs) |}.

(** The part of [play_poker_hand] after [start_poker] returned the final
    stacks (lines 624-775). *)
Definition after_engine (min_stack : Z) (final : Z * Z) (s : GameState) : GameState :=
  check_game_over (record_history (record_winner (record_pots (settle min_stack final s)))).

(** [play_poker_hand()], one hand of the match. *)
Definition play_poker_hand (engine : Engine) (s : GameState) : GameState :=
  let s := begin_hand s in
  let '(_, small_blind, big_blind) := blinds s.(hand_number) in
  if s.(claude_stack) <? big_blind then bust_before_hand Claude big_blind s
  else if s.(gpt_stack) <? big_blind then bust_before_hand GPT big_blind s
  else
    let min_stack := Z.min s.(claude_stack) s.(gpt_stack) in
    let run := engine min_stack small_blind in
    let s := observe_run run s in
    match run.(run_result) with
    | Some final => after_engine min_stack final s
    | None => set_round RError s
    end.

(** The state in which a hand that reached the engine and got its result
    back enters the settlement, and the state after the settlement. *)
Definition engine_state (engine : Engine) (s : GameState) : GameState :=
  let s0 := begin_hand s in
  observe_run (engine (Z.min s.(claude_stack) s.(gpt_stack))
                      (small_blind_of s0.(hand_number))) s0.

(** The hand-win counter and streak of [p] incremented from [before] to
    [after], the opponent's hand-win counter kept and its streak reset. *)
Definition hand_win_recorded (before after : GameState) (p : Seat) : Prop :=
  match p with
  | Claude => claude_wins after = claude_wins before + 1
              /\ claude_streak after = claude_streak before + 1
              /\ gpt_wins after = gpt_wins before /\ gpt_streak after = 0
  | GPT => gpt_wins after = gpt_wins before + 1
           /\ gpt_streak after = gpt_streak before + 1
           /\ claude_wins after = claude_wins before /\ claude_streak after = 0
  end.

End Lifecycle.

(* ------------------------------------------------------------------ *)
(** ** [calculate_win_probabilities] *)

Module Equity.

(** A Python [str] as its list of code points. *)
Definition pystr := list N.

Definition u (s : string) : pystr := map N_of_ascii (list_ascii_of_string s).

Definition SPADE : N := 9824.     (* U+2660 *)
Definition HEART : N := 9829.     (* U+2665 *)
Definition DIAMOND : N := 9830.   (* U+2666 *)
Definition CLUB : N := 9827.      (* U+2663 *)
Definition CARD_BACK : N := 127136. (* U+1F0A0 *)

(** A PyPokerEngine [Card], identified by [str(card)]: suit then rank. *)
Record Card := { csuit : ascii; crank : ascii }.

Definition card_eqb (a b : Card) : bool :=
  Ascii.eqb a.(csuit) b.(csuit) && Ascii.eqb a.(crank) b.(crank).

(** [rank_map] and [suit_map] of [card_to_pypoker_obj], in the insertion
    order of the dictionaries. *)
Definition rank_map : list (pystr * ascii) :=
  [(u "A", "A"%char); (u "K", "K"%char); (u "Q", "Q"%char); (u "J", "J"%char);
   (u "10", "T"%char); (u "9", "9"%char); (u "8", "8"%char); (u "7", "7"%char);
   (u "6", "6"%char); (u "5", "5"%char); (u "4", "4"%char); (u "3", "3"%char);
   (u "2", "2"%char)].

Definition suit_map : list (pystr * ascii) :=
  [([SPADE], "S"%char); ([HEART], "H"%char); ([DIAMOND], "D"%char); ([CLUB], "C"%char)].

Definition str_in (p s : pystr) : bool := contains N.eqb p s.

Fixpoint try_suits (suits : list (pystr * ascii)) (card_str : pystr) (code : ascii)
    : option Card :=
  match suits with
  | [] => None
  | (suit, suit_code) :: rest =>
      if str_in suit card_str then Some {| csuit := suit_code; crank := code |}
      else try_suits rest card_str code
  end.

Fixpoint try_ranks (ranks : list (pystr * ascii)) (card_str : pystr) : option Card :=
  match ranks with
  | [] => None
  | (rank, code) :: rest =>
      if str_in rank card_str then
        match try_suits suit_map card_str code with
        | Some c => Some c
        | None => try_ranks rest card_str
        end
      else try_ranks rest card_str
  end.

(** [card_to_pypoker_obj(card_str)]. *)
Definition card_to_pypoker_obj (card_str : pystr) : option Card :=
  match card_str with
  | [] => None
  | _ => if str_in [CARD_BACK] card_str then None else try_ranks rank_map card_str
  end.

Fixpoint somes {A} (l : list (option A)) : list A :=
  match l with
  | [] => []
  | Some x :: r => x :: somes r
  | None :: r => somes r
  end.

(** [[card_to_pypoker_obj(c) for c in cards]] with the [None]s removed. *)
Definition recognized (cards : list pystr) : list Card :=
  somes (map card_to_pypoker_obj cards).

Definition all_cards_52 : list Card :=
  flat_map (fun s => map (fun r => {| csuit := s; crank := r |})
                         (map snd rank_map))
           (map snd suit_map).

(** [HandEvaluator.eval_hand(hole, board)]: a rank score, or [None] when
    it raises. *)
Definition Evaluator := list Card -> list Card -> option Z.

(** The shared random source: what [random.sample(deck, k)] draws at
    simulation [i]. *)
Definition Sampler := nat -> list Card -> Z -> list Card.

Section Estimator.
Variable eval_hand : Evaluator.
Variable draw : Sampler.

(** [random.sample(population, k)], which raises [ValueError] unless
    [0 <= k <= len(population)]. *)
Definition random_sample (i : nat) (population : list Card) (k : Z)
    : option (list Card) :=
  if (0 <=? k) && (k <=? Z.of_nat (List.length population))
  then Some (draw i population k) else None.

(** [(claude_wins, gpt_wins, ties)]. *)
Definition Tally := (nat * nat * nat)%type.

(** One pass of the simulation loop (lines 220-232). *)
Definition simulate_once (claude_hole gpt_hole board deck : list Card) (k : Z)
    (i : nat) (acc : Tally) : option Tally :=
  let '(cw, gw, ties) := acc in
  match random_sample i deck k with
  | None => None
  | Some remaining_community =>
      let full_board := board ++ remaining_community in
      match eval_hand claude_hole full_board, eval_hand gpt_hole full_board with
      | Some claude_strength, Some gpt_strength =>
          Some (if claude_strength >? gpt_strength then (S cw, gw, ties)
                else if gpt_strength >? claude_strength then (cw, S gw, ties)
                else (cw, gw, S ties))
      | _, _ => None
      end
  end.

Fixpoint simulate (claude_hole gpt_hole board deck : list Card) (k : Z)
    (iterations : list nat) (acc : Tally) : option Tally :=
  match iterations with
  | [] => Some acc
  | i :: rest =>
      match simulate_once claude_hole gpt_hole board deck k i acc with
      | Some acc' => simulate claude_hole gpt_hole board deck k rest acc'
      | None => None
      end
  end.
End Estimator.

Open Scope float_scope.

Definition simulations : nat := 500.

(** [float(n)] of a small non-negative Python [int]. *)
Definition float_of_nat (n : nat) : float := of_uint63 (Uint63.of_Z (Z.of_nat n)).

(** [((wins + ties * 0.5) / total) * 100.0] (lines 236-237). *)
Definition percentage (wins ties : nat) : float :=
  ((float_of_nat wins + float_of_nat ties * 0.5) / float_of_nat simulations) * 100.0.

(** Python's [round(x, 1)] on a float: the exact binary value of [x] is
    rounded half-to-even to one decimal [n / 10], and the result is the
    float nearest to [n / 10] (CPython's correctly rounded [float.__round__]).
    Floats without a fractional part, zeros, infinities and NaN come back
    unchanged. *)
Definition py_round1 (x : float) : float :=
  match Prim2SF x with
  | SpecFloat.S754_finite sgn m e =>
      if (0 <=? e)%Z then x
      else
        let num := (Zpos m * 10)%Z in
        let den := (2 ^ (- e))%Z in
        let q := (num / den)%Z in
        let r := (num mod den)%Z in
        let n := if (2 * r <? den)%Z then q
                 else if (den <? 2 * r)%Z then (q + 1)%Z
                 else if Z.even q then q else (q + 1)%Z in
        match n with
        | Zpos p =>
            SF2Prim (SpecFloat.SFdiv prec emax (SpecFloat.S754_finite sgn p 0)
                                     (SpecFloat.S754_finite false 5 1))
        | _ => SF2Prim (SpecFloat.S754_zero sgn)
        end
  | _ => x
  end.

(** [calculate_win_probabilities(claude_cards, gpt_cards, community_cards)]
    inside its [try]: [None] where an exception escapes the body. *)
Definition win_probabilities_body (eval_hand : Evaluator) (draw : Sampler)
    (claude_cards gpt_cards community_cards : list pystr) : option (float * float) :=
  match claude_cards, gpt_cards with
  | [], _ | _, [] => Some (50.0, 50.0)
  | _, _ =>
    let claude_hole := recognized claude_cards in
    let gpt_hole := recognized gpt_cards in
    let board := recognized community_cards in
    if negb (Nat.eqb (List.length claude_hole) 2 && Nat.eqb (List.length gpt_hole) 2)
    then Some (50.0, 50.0)
    else
      let used := claude_hole ++ gpt_hole ++ board in
      let deck := filter (fun c => negb (existsb (card_eqb c) used)) all_cards_52 in
      let cards_needed := (5 - Z.of_nat (List.length board))%Z in
      if (cards_needed =? 0)%Z then
        match eval_hand claude_hole board, eval_hand gpt_hole board with
        | Some claude_strength, Some gpt_strength =>
            Some (if (claude_strength >? gpt_strength)%Z then (100.0, 0.0)
                  else if (gpt_strength >? claude_strength)%Z then (0.0, 100.0)
                  else (50.0, 50.0))
        | _, _ => None
        end
      else
        match simulate eval_hand draw claude_hole gpt_hole board deck cards_needed
                       (seq 0 simulations) (0, 0, 0)%nat with
        | Some (cw, gw, ties) =>
            Some (py_round1 (percentage cw ties), py_round1 (percentage gw ties))
        | None => None
        end
  end.

(** The function with its [except Exception: return 50.0, 50.0]. *)
Definition calculate_win_probabilities (eval_hand : Evaluator) (draw : Sampler)
    (claude_cards gpt_cards community_cards : list pystr) : float * float :=
  match win_probabilities_body eval_hand draw claude_cards gpt_cards community_cards with
  | Some r => r
  | None => (50.0, 50.0)
  end.

Close Scope float_scope.

(** The exact value of a finite float as a rational ([0] for the others). *)
Definition float_Q (f : float) : Q :=
  match Prim2SF f with
  | SpecFloat.S754_finite sgn m e =>
      let z := if sgn then Zneg m else Zpos m in
      if (0 <=? e)%Z then inject_Z (z * 2 ^ e) else Qmake z (Z.to_pos (2 ^ (- e)))
  | _ => 0%Q
  end.

Definition is_finite_float (f : float) : bool :=
  match Prim2SF f with
  | SpecFloat.S754_finite _ _ _ | SpecFloat.S754_zero _ => true
  | _ => false
  end.

(** The properties of a returned pair checked for one tally: both values
    finite, in [[0, 100]], and their exact sum within [0.1] of [100]. *)
Definition pair_in_range (r : float * float) : bool :=
  let '(a, b) := r in
  is_finite_float a && is_finite_float b
  && Qle_bool 0 (float_Q a) && Qle_bool (float_Q a) 100
  && Qle_bool 0 (float_Q b) && Qle_bool (float_Q b) 100
  && Qle_bool (Qabs (float_Q a + float_Q b - 100)) (1 # 10).

Definition tally_pair (cw gw ties : nat) : float * float :=
  (py_round1 (percentage cw ties), py_round1 (percentage gw ties)).

(** The exact sum of the two unrounded float percentages of a tally is
    within [10^-12] of [100]. *)
Definition unrounded_close (cw gw ties : nat) : bool :=
  Qle_bool (Qabs (float_Q (percentage cw ties) + float_Q (percentage gw ties) - 100))
           (1 # 1000000000000).

Definition tally_ok (cw gw ties : nat) : bool :=
  pair_in_range (tally_pair cw gw ties) && unrounded_close cw gw ties.

(** The machine integers [0], [1] and [2]. *)
Definition int0 : PrimInt63.int := Eval vm_compute in Uint63.of_Z 0.
Definition int1 : PrimInt63.int := Eval vm_compute in Uint63.of_Z 1.
Definition int2 : PrimInt63.int := Eval vm_compute in Uint63.of_Z 2.

(** The count of a tally as a machine integer, as [float(n)] reads it. *)
Definition int_of_nat (n : nat) : PrimInt63.int := Uint63.of_Z (Z.of_nat n).

(** [percentage] on machine-integer counts. *)
Definition percentage_int (w t : PrimInt63.int) : float :=
  (((of_uint63 w + of_uint63 t * 0.5) / 500) * 100)%float.

(** [percentage w t] and [percentage (w + t / 2) (t mod 2)] are the same
    float for [t = t0, t0 + 1, ...] ([fuel] values). *)
Fixpoint ties_agree (fuel : nat) (w t : PrimInt63.int) : bool :=
  match fuel with
  | O => true
  | S f =>
      PrimFloat.Leibniz.eqb (percentage_int w t)
        (percentage_int (PrimInt63.add w (PrimInt63.div t int2)) (PrimInt63.mod t int2))
      && ties_agree f w (PrimInt63.add t int1)
  end.

(** [ties_agree] for [w = w0, w0 + 1, ...] and every [t] with
    [w + t <= w0 + fuel - 1]. *)
Fixpoint wins_agree (fuel : nat) (w : PrimInt63.int) : bool :=
  match fuel with
  | O => true
  | S f => ties_agree fuel w int0 && wins_agree f (PrimInt63.add w int1)
  end.

(** The percentage of [x] half-points ([2 * wins + ties = x]). *)
Definition percentage_half (x : nat) : float := percentage (x / 2) (x mod 2).

(** The checks of [tally_ok] for the tallies with [2 * cw + ties = x]
    (then [2 * gw + ties = 1000 - x]). *)
Definition half_points_ok (x : nat) : bool :=
  let a := percentage_half x in
  let b := percentage_half (1000 - x) in
  pair_in_range (py_round1 a, py_round1 b)
  && Qle_bool (Qabs (float_Q a + float_Q b - 100)) (1 # 1000000000000).

(** The exact rational value of [((wins + ties * 0.5) / 500) * 100]. *)
Definition percentage_exact (wins ties : nat) : Q :=
  ((inject_Z (Z.of_nat wins) + inject_Z (Z.of_nat ties) * (1 # 2)) / 500) * 100.

End Equity.

(* ------------------------------------------------------------------ *)
(** ** Display helpers: logs, thoughts, cards and hand names *)

Module Display.
Import Equity.

(** [add_log(message)]: the line [[HH:MM:SS] message] appended, then the
    oldest line dropped once there are more than 200; [timestamp] is what
    [datetime.now().strftime("%H:%M:%S")] returned. *)
Definition add_log (timestamp message : string) (logs : list string) : list string :=
  let logs := logs ++ [("[" ++ timestamp ++ "] " ++ message)%string] in
  if Nat.ltb 200 (List.length logs) then tl logs else logs.


(** [str.upper] on ASCII characters. *)
Definition ascii_upper (c : ascii) : ascii :=
  if (97 <=? code c)%nat && (code c <=? 122)%nat
  then ascii_of_nat (code c - 32) else c.

Definition py_upper (s : string) : string :=
  string_of_list_ascii (map ascii_upper (list_ascii_of_string s)).

(** [THOUGHT_TEMPLATES[player]]; [None] is the [KeyError]. *)
Definition THOUGHT_TEMPLATES (player : string) : option (list string) :=
  if String.eqb player "claude" then
    Some ["Analyzing pot odds..."%string; "Evaluating hand strength..."%string;
          "Calculating expected value..."%string; "Considering position advantage..."%string;
          "Reading opponent's pattern..."%string; "Assessing risk/reward ratio..."%string]
  else if String.eqb player "gpt" then
    Some ["Reading the table..."%string; "Thinking about bluff potential..."%string;
          "Analyzing betting patterns..."%string; "Considering stack sizes..."%string;
          "Evaluating showdown value..."%string; "Planning next street..."%string]
  else None.

(** [add_thought(player, thought)]; [choice] is [random.choice]. [None]
    is the [KeyError] of an unknown player without a thought. *)
Definition add_thought (choice : list string -> string) (player : string)
    (thought : option string) (thoughts : list string) : option (list string) :=
  let thought := match thought with
                 | Some t => Some t
                 | None => option_map choice (THOUGHT_TEMPLATES player)
                 end in
  match thought with
  | None => None
  | Some t =>
      let thoughts := thoughts ++ [(py_upper player ++ ": " ++ t)%string] in
      Some (if Nat.ltb 20 (List.length thoughts) then tl thoughts else thoughts)
  end.

(** The slice [l[-n:]] for [n >= 1]. *)
Definition py_tail {A} (n : nat) (l : list A) : list A := skipn (List.length l - n) l.

(** The [logs] and [thoughts] parts of the [get_state] response. *)
Definition get_state (logs thoughts : list string) : list string * list string :=
  (py_tail 100 logs, py_tail 15 thoughts).

Definition cp (c : ascii) : N := N_of_ascii c.

(** [CARD_SYMBOLS]. *)
Definition CARD_SYMBOLS : list (N * pystr) :=
  [(cp "S", [SPADE]); (cp "H", [HEART]); (cp "D", [DIAMOND]); (cp "C", [CLUB]);
   (cp "2", u "2"); (cp "3", u "3"); (cp "4", u "4"); (cp "5", u "5");
   (cp "6", u "6"); (cp "7", u "7"); (cp "8", u "8"); (cp "9", u "9");
   (cp "T", u "10"); (cp "J", u "J"); (cp "Q", u "Q"); (cp "K", u "K");
   (cp "A", u "A")].

(** [CARD_SYMBOLS.get(k, k)]. *)
Definition card_symbol (k : N) : pystr :=
  match find (fun e => N.eqb (fst e) k) CARD_SYMBOLS with
  | Some (_, v) => v
  | None => [k]
  end.

Fixpoint list_eqb {A} (eqb : A -> A -> bool) (a b : list A) : bool :=
  match a, b with
  | [], [] => true
  | x :: a', y :: b' => eqb x y && list_eqb eqb a' b'
  | _, _ => false
  end.

(** [format_card(card_str)]; [None] is the [IndexError] of [card_str[1]]
    on a one-character string. *)
Definition format_card (card_str : pystr) : option pystr :=
  if list_eqb N.eqb card_str [] || list_eqb N.eqb card_str (u "XX")
  then Some [CARD_BACK]
  else match card_str with
       | rank :: suit :: _ => Some (card_symbol rank ++ card_symbol suit)
       | _ => None
       end.

(** [str(card)] of a PyPokerEngine [Card]: suit letter then rank letter,
    the format [Card.from_str] reads back. *)
Definition card_str (c : Card) : pystr := [cp (csuit c); cp (crank c)].

(** [get_hand_rank_name(rank)]. *)
Definition get_hand_rank_name (rank : Z) : string :=
  if rank >=? 8000000 then "Straight Flush"
  else if rank >=? 7000000 then "Four of a Kind"
  else if rank >=? 6000000 then "Full House"
  else if rank >=? 5000000 then "Flush"
  else if rank >=? 4000000 then "Straight"
  else if rank >=? 3000000 then "Three of a Kind"
  else if rank >=? 2000000 then "Two Pair"
  else if rank >=? 1000000 then "One Pair"
  else "High Card".

(** The nine names from the weakest category to the strongest. *)
Definition hand_rank_names : list string :=
  ["High Card"%string; "One Pair"%string; "Two Pair"%string; "Three of a Kind"%string; "Straight"%string;
   "Flush"%string; "Full House"%string; "Four of a Kind"%string; "Straight Flush"%string].

(** The category index: the millions digit of the score, within [0..8]. *)
Definition hand_category (rank : Z) : Z := Z.max 0 (Z.min 8 (rank / 1000000)).

(** [to_card_obj(card_str)] of [play_poker_hand] (lines 662-671). *)
Definition to_card_obj (card_str : pystr) : option Card := try_ranks rank_map card_str.

(** [winning_hand_detail] of [play_poker_hand] (lines 656-692);
    [eval_hand] is [HandEvaluator.eval_hand], [None] when it raises. *)
Definition winning_hand_detail (eval_hand : Evaluator)
    (claude_cards gpt_cards community_cards : list pystr) : string :=
  match claude_cards, gpt_cards, community_cards with
  | [], _, _ | _, [], _ | _, _, [] => "High Card"
  | _, _, _ =>
      let claude_hole := somes (map to_card_obj claude_cards) in
      let gpt_hole := somes (map to_card_obj gpt_cards) in
      let board := somes (map to_card_obj community_cards) in
      if Nat.eqb (List.length claude_hole) 2 && Nat.eqb (List.length gpt_hole) 2
         && Nat.leb 3 (List.length board) then
        match eval_hand claude_hole board, eval_hand gpt_hole board with
        | Some claude_rank, Some gpt_rank =>
            let claude_hand_name := get_hand_rank_name claude_rank in
            let gpt_hand_name := get_hand_rank_name gpt_rank in
            if claude_rank >? gpt_rank then (claude_hand_name ++ " beats " ++ gpt_hand_name)%string
            else if gpt_rank >? claude_rank then (gpt_hand_name ++ " beats " ++ claude_hand_name)%string
            else ("Tie with " ++ claude_hand_name)%string
        | _, _ => "by stack comparison"
        end
      else "by fold or insufficient cards"
  end.

(** The deck of the estimator (line 189): the 52 cards less the known ones. *)
Definition deck_of (used : list Card) : list Card :=
  filter (fun c => negb (existsb (card_eqb c) used)) all_cards_52.

End Display.

(* ------------------------------------------------------------------ *)
(** ** The background loop and the start/stop endpoints *)

Module GameLoop.
Import Lifecycle.

(** [game_state] with the loop's own entries [is_playing], [countdown]
    and [hand_countdown]. *)
Record LoopState := {
  game : GameState;
  is_playing : bool;
  countdown : Z;
  hand_countdown : Z }.

(** [game_state['wait_for_new_game'] = b]. *)
Definition set_wait (b : bool) (s : GameState) : GameState := {|
  hand_number := s.(hand_number); total_hands := s.(total_hands);
  current_game_hands := s.(current_game_hands);
  round := s.(round); pot := s.(pot);
  claude_stack := s.(claude_stack); gpt_stack := s.(gpt_stack);
  winner := s.(winner); dealer := s.(dealer);
  wait_for_new_game := b;
  claude_wins := s.(claude_wins); gpt_wins := s.(gpt_wins);
  claude_games_won := s.(claude_games_won); gpt_games_won := s.(gpt_games_won);
  biggest_pot := s.(biggest_pot); total_allins := s.(total_allins);
  game_pots := s.(game_pots); longest_game := s.(longest_game);
  shortest_game := s.(shortest_game); hand_history := s.(hand_history);
  stack_history := s.(stack_history); claude_streak := s.(claude_streak);
  gpt_streak := s.(gpt_streak); logs := s.(logs) |}.

Definition with_game (g : GameState) (l : LoopState) : LoopState :=
  {| game := g; is_playing := l.(is_playing); countdown := l.(countdown);
     hand_countdown := l.(hand_countdown) |}.

Definition with_countdown (c : Z) (l : LoopState) : LoopState :=
  {| game := l.(game); is_playing := l.(is_playing); countdown := c;
     hand_countdown := l.(hand_countdown) |}.

Definition with_hand_countdown (c : Z) (l : LoopState) : LoopState :=
  {| game := l.(game); is_playing := l.(is_playing); countdown := l.(countdown);
     hand_countdown := c |}.

(** [range(n, 0, -1)]. *)
Definition countdown_range (n : nat) : list Z := map Z.of_nat (rev (seq 1 n)).

(** One pass of the [while True] body of [game_loop()] (lines 788-814);
    [time.sleep] and the loop's log lines are left out. *)
Definition loop_pass (engine : Engine) (l : LoopState) : LoopState :=
  if negb l.(is_playing) then l
  else
    let l := if l.(game).(wait_for_new_game) then
               let l := with_game (set_round RCountdown l.(game)) l in
               let l := fold_left (fun l i => with_countdown i l) (countdown_range 60) l in
               with_game (set_wait false l.(game)) l
             else l in
    let l := with_countdown 0 l in
    let l := with_game (play_poker_hand engine l.(game)) l in
    let l := with_game (set_round RHandPause l.(game)) l in
    let l := fold_left (fun l i => with_hand_countdown i l) (countdown_range 10) l in
    with_hand_countdown 0 l.

(** Successive passes, one rules-engine run per pass. *)
Definition loop_passes (engines : list Engine) (l : LoopState) : LoopState :=
  fold_left (fun l e => loop_pass e l) engines l.

(** [start_game()] (its log line left out). *)
Definition start_game (l : LoopState) : LoopState :=
  {| game := set_wait true l.(game); is_playing := true; countdown := l.(countdown);
     hand_countdown := l.(hand_countdown) |}.

(** [stop_game()] (its log line left out). *)
Definition stop_game (l : LoopState) : LoopState :=
  {| game := l.(game); is_playing := false; countdown := l.(countdown);
     hand_countdown := l.(hand_countdown) |}.

(** The module-level [game_state] before the auto-start (lines 21-63). *)
Definition initial_loop : LoopState :=
  {| game := initial_state; is_playing := false; countdown := 60;
     hand_countdown := 0 |}.

(** The states the server goes through: the initial state, then passes of
    the loop and calls of the start and stop endpoints (the auto-start of
    lines 851-854 is a [start_game]), the endpoints taken between passes. *)
Inductive reachable : LoopState -> Prop :=
| reach_init : reachable initial_loop
| reach_pass (e : Engine) (l : LoopState) : reachable l -> reachable (loop_pass e l)
| reach_start (l : LoopState) : reachable l -> reachable (start_game l)
| reach_stop (l : LoopState) : reachable l -> reachable (stop_game l).

End GameLoop.

(* ================================================================== *)
(** * Proofs *)

(** Splits on the first [if] of the goal. *)
Ltac case_if :=
  match goal with |- context [if ?c then _ else _] => destruct c end.

(** ** Text primitives *)

Lemma space_not_digit (c : ascii) : is_space c = true -> is_digit c = false.
Proof. destruct c as [[] [] [] [] [] [] [] []]; vm_compute; congruence. Qed.

Lemma ascii_eqb_sound (a b : ascii) : Ascii.eqb a b = true -> a = b.
Proof. apply Ascii.eqb_eq. Qed.

Lemma lstrip_split (t : list ascii) :
  exists ws, forallb is_space ws = true /\ t = ws ++ lstrip t.
Proof.
  induction t as [|c r IH]; simpl.
  - exists []; auto.
  - destruct (is_space c) eqn:Hc.
    + destruct IH as [ws [Hws Hr]]. exists (c :: ws). simpl. rewrite Hc, Hws.
      split; [reflexivity | simpl; f_equal; exact Hr].
    + exists []. auto.
Qed.

Lemma forallb_rev {A} (f : A -> bool) (l : list A) :
  forallb f (rev l) = forallb f l.
Proof.
  induction l as [|x l IH]; simpl; [reflexivity|].
  rewrite forallb_app, IH. simpl. rewrite andb_true_r, andb_comm. reflexivity.
Qed.

Lemma py_strip_split (t : list ascii) :
  exists ws1 ws2, forallb is_space ws1 = true /\ forallb is_space ws2 = true
    /\ t = ws1 ++ py_strip t ++ ws2.
Proof.
  destruct (lstrip_split t) as [ws1 [H1 E1]].
  destruct (lstrip_split (rev (lstrip t))) as [ws2 [H2 E2]].
  exists ws1, (rev ws2). split; [exact H1|]. split; [rewrite forallb_rev; exact H2|].
  unfold py_strip. rewrite E1 at 1. f_equal.
  transitivity (rev (rev (lstrip t))); [symmetry; apply rev_involutive|].
  rewrite E2 at 1. rewrite rev_app_distr. reflexivity.
Qed.

Lemma is_prefix_app (p x y : list ascii) :
  is_prefix Ascii.eqb p x = true -> is_prefix Ascii.eqb p (x ++ y) = true.
Proof.
  revert x; induction p as [|a p IH]; intros [|c x] H; simpl in *; try easy.
  apply andb_prop in H as [H1 H2]. rewrite H1. simpl. auto.
Qed.

Lemma is_prefix_app_space (p x ws : list ascii) :
  forallb (fun c => negb (is_space c)) p = true -> forallb is_space ws = true ->
  is_prefix Ascii.eqb p (x ++ ws) = is_prefix Ascii.eqb p x.
Proof.
  intros Hp Hws. destruct (is_prefix Ascii.eqb p x) eqn:E; [now apply is_prefix_app|].
  revert x E Hp; induction p as [|a p IH]; intros x E Hp; [discriminate|].
  simpl in Hp. apply andb_prop in Hp as [Ha Hp].
  destruct x as [|c x]; simpl in *.
  - destruct ws as [|w ws]; [reflexivity|]. simpl in Hws.
    apply andb_prop in Hws as [Hw _].
    destruct (Ascii.eqb a w) eqn:Eaw; [|reflexivity].
    apply ascii_eqb_sound in Eaw. subst. rewrite Hw in Ha. discriminate.
  - destruct (Ascii.eqb a c); simpl in *; [|reflexivity]. apply IH; auto.
Qed.

Lemma contains_app_space (p x ws : list ascii) :
  p <> [] -> forallb (fun c => negb (is_space c)) p = true ->
  forallb is_space ws = true ->
  contains Ascii.eqb p (x ++ ws) = contains Ascii.eqb p x.
Proof.
  intros Hne Hp Hws. induction x as [|c x IH].
  - simpl. destruct p as [|a p]; [congruence|]. simpl in Hp.
    apply andb_prop in Hp as [Ha _]. clear Hne.
    induction ws as [|w ws IHw]; [reflexivity|].
    simpl in Hws |- *. apply andb_prop in Hws as [Hw Hws].
    destruct (Ascii.eqb a w) eqn:Eaw.
    + apply ascii_eqb_sound in Eaw. subst. rewrite Hw in Ha. discriminate.
    + simpl. auto.
  - change ((c :: x) ++ ws) with (c :: (x ++ ws)).
    simpl contains. rewrite IH.
    rewrite <- (is_prefix_app_space p (c :: x) ws Hp Hws). reflexivity.
Qed.

Lemma contains_space_app (p ws x : list ascii) :
  forallb (fun c => negb (is_space c)) p = true -> p <> [] ->
  forallb is_space ws = true ->
  contains Ascii.eqb p (ws ++ x) = contains Ascii.eqb p x.
Proof.
  intros Hp Hne Hws. destruct p as [|a p]; [congruence|].
  simpl in Hp. apply andb_prop in Hp as [Ha _].
  induction ws as [|w ws IH]; [reflexivity|].
  simpl in Hws. apply andb_prop in Hws as [Hw Hws].
  simpl. destruct (Ascii.eqb a w) eqn:Eaw.
  - apply ascii_eqb_sound in Eaw. subst. rewrite Hw in Ha. discriminate.
  - simpl. apply IH; auto.
Qed.

Lemma take_digits_app_space (acc : Z) (l ws : list ascii) :
  forallb is_space ws = true -> take_digits acc (l ++ ws) = take_digits acc l.
Proof.
  intros Hws. revert acc. induction l as [|c l IH]; intros acc; simpl.
  - destruct ws as [|w ws]; [reflexivity|]. simpl in *.
    apply andb_prop in Hws as [Hw _]. rewrite (space_not_digit w Hw). reflexivity.
  - destruct (is_digit c); auto.
Qed.

Lemma first_number_app_space (l ws : list ascii) :
  forallb is_space ws = true -> first_number (l ++ ws) = first_number l.
Proof.
  intros Hws. induction l as [|c l IH]; simpl.
  - induction ws as [|w ws IHw]; [reflexivity|]. simpl in *.
    apply andb_prop in Hws as [Hw Hws]. rewrite (space_not_digit w Hw). auto.
  - destruct (is_digit c); [|exact IH].
    f_equal. change (c :: l ++ ws) with ((c :: l) ++ ws).
    apply take_digits_app_space; exact Hws.
Qed.

Lemma first_number_space_app (ws l : list ascii) :
  forallb is_space ws = true -> first_number (ws ++ l) = first_number l.
Proof.
  intros Hws. induction ws as [|w ws IH]; [reflexivity|]. simpl in *.
  apply andb_prop in Hws as [Hw Hws]. rewrite (space_not_digit w Hw). auto.
Qed.

(** Stripping the text changes neither the keywords found in it nor its
    first number. *)
Lemma has_strip (p : string) (t : list ascii) :
  forallb (fun c => negb (is_space c)) (lit p) = true -> lit p <> [] ->
  has p (py_strip t) = has p t.
Proof.
  intros Hp Hne. destruct (py_strip_split t) as [ws1 [ws2 [H1 [H2 E]]]].
  unfold has. rewrite E at 2.
  rewrite contains_space_app by assumption.
  rewrite contains_app_space by assumption. reflexivity.
Qed.

Lemma first_number_strip (t : list ascii) :
  first_number (py_strip t) = first_number t.
Proof.
  destruct (py_strip_split t) as [ws1 [ws2 [H1 [H2 E]]]].
  rewrite E at 2. rewrite first_number_space_app by assumption.
  rewrite first_number_app_space by assumption. reflexivity.
Qed.

(** ** Decision adapter *)

(** Claim C5: [parse_ai_decision] is the ordered scan of the lowercased
    text: "fold" anywhere gives [(fold, 0)]; otherwise "call" gives
    [(call, 0)]; otherwise "raise" or "bet" gives [(raise, n)] with [n] the
    first embedded integer, or [(raise, 20)] without digits; otherwise
    [(call, 0)]. The three sample responses of the spec parse as stated,
    and a text with both "fold" and "raise" is a fold. *)
Theorem parse_ai_decision_ordered_scan :
  (forall s, parse_ai_decision s = parse_ai_decision_spec s)
  /\ parse_ai_decision "I will fold here" = (AFold, 0)
  /\ parse_ai_decision "raise 75" = (ARaise, 75)
  /\ parse_ai_decision "call please" = (ACall, 0)
  /\ (forall s, has "fold" (py_lower (lit s)) = true ->
                has "raise" (py_lower (lit s)) = true ->
                parse_ai_decision s = (AFold, 0)).
Proof.
  assert (Hscan : forall s, parse_ai_decision s = parse_ai_decision_spec s).
  { intros s. unfold parse_ai_decision, parse_ai_decision_spec.
    set (t := py_lower (lit s)).
    rewrite !has_strip by (vm_compute; congruence).
    rewrite first_number_strip. destruct (first_number t); reflexivity. }
  split; [exact Hscan|].
  split; [reflexivity|]. split; [reflexivity|]. split; [reflexivity|].
  intros s Hf _. rewrite Hscan. unfold parse_ai_decision_spec. rewrite Hf. reflexivity.
Qed.

Lemma parse_ai_decision_ordered_scan_witness :
  has "fold" (py_lower (lit "FOLD, do not raise")) = true
  /\ has "raise" (py_lower (lit "FOLD, do not raise")) = true
  /\ parse_ai_decision "FOLD, do not raise" = (AFold, 0).
Proof.
  split; [reflexivity|]. split; [reflexivity|].
  apply (proj2 (proj2 (proj2 (proj2 parse_ai_decision_ordered_scan))));
    reflexivity.
Defined.

Lemma clamp_raise_min_max (amount mn mx : Z) :
  clamp_raise amount mn mx =
  (let c := Z.min mx (Z.max (Z.max 20 mn) amount) in
   if c <? 0 then (ACall, 0) else (ARaise, c)).
Proof.
  unfold clamp_raise. cbv zeta.
  assert (E : (let a := if amount <? Z.max 20 mn then Z.max 20 mn else amount in
               if a >? mx then mx else a) = Z.min mx (Z.max (Z.max 20 mn) amount)).
  { cbv zeta. destruct (Z.ltb_spec amount (Z.max 20 mn));
      [destruct (Z.gtb_spec (Z.max 20 mn) mx) | destruct (Z.gtb_spec amount mx)]; lia. }
  cbv zeta in E. rewrite E. reflexivity.
Qed.

(** Claim C4: when the parsed action is a raise and the first legal raise
    has bounds [{min: mn, max: mx}], the amount is raised to
    [max(20, mn)] when below it and capped to [mx] when above; the result
    is [('call', 0)] when the clamped amount is negative and a raise of
    the clamped amount otherwise; and for [mn <= mx] a returned raise
    amount lies in [[mn, mx]]. *)
Theorem declare_action_raise_clamp (valid_actions : list ValidAction) (amount mn mx : Z) :
  find (fun va => ActionKind_eqb (action_of va) ARaise) valid_actions = Some (VRaise mn mx) ->
  let lo := Z.max 20 mn in
  let c := Z.min mx (Z.max lo amount) in
  resolve_action valid_actions (ARaise, amount) = (if c <? 0 then (ACall, 0) else (ARaise, c))
  /\ (amount < lo -> lo <= mx -> c = lo)
  /\ (mx < amount -> c = mx)
  /\ (lo <= amount <= mx -> c = amount)
  /\ (forall a, resolve_action valid_actions (ARaise, amount) = (ARaise, a) ->
                mn <= mx -> mn <= a <= mx).
Proof.
  intros Hfind lo c.
  assert (Hres : resolve_action valid_actions (ARaise, amount)
                 = (if c <? 0 then (ACall, 0) else (ARaise, c))).
  { unfold resolve_action. rewrite Hfind. apply clamp_raise_min_max. }
  split; [exact Hres|].
  unfold c, lo. split; [lia|]. split; [lia|]. split; [lia|].
  intros a Ha Hle. rewrite Hres in Ha.
  destruct (_ <? 0); inversion Ha; subst; lia.
Qed.

Lemma declare_action_raise_clamp_witness :
  resolve_action [VFold; VCall 10; VRaise 15 300] (ARaise, 500) = (ARaise, 300)
  /\ resolve_action [VFold; VCall 10; VRaise (-1) (-1)] (ARaise, 75) = (ACall, 0).
Proof.
  split.
  - destruct (declare_action_raise_clamp [VFold; VCall 10; VRaise 15 300] 500 15 300
                eq_refl) as [H _]. rewrite H. reflexivity.
  - destruct (declare_action_raise_clamp [VFold; VCall 10; VRaise (-1) (-1)] 75 (-1) (-1)
                eq_refl) as [H _]. rewrite H. reflexivity.
Defined.

(** ** Match lifecycle *)

Import Lifecycle.

Lemma begin_hand_hand_number (s : GameState) :
  hand_number (begin_hand s) = hand_number s + 1.
Proof. reflexivity. Qed.

(** Claim C3: for every hand number [n >= 1] the level is [n / 10], the
    small blind [5 + 5 * level] and the big blind twice the small blind;
    both blinds are non-decreasing in the hand number; and the hand played
    from a state with [hand_number = n - 1] uses the big blind of [n]: a
    Claude stack below it busts Claude before the hand. *)
Theorem blind_schedule (n : Z) :
  1 <= n ->
  blinds n = (n / 10, 5 + 5 * (n / 10), 2 * (5 + 5 * (n / 10)))
  /\ (forall m, n <= m ->
        small_blind_of n <= small_blind_of m /\ big_blind_of n <= big_blind_of m)
  /\ (forall (engine : Engine) (s : GameState),
        hand_number s + 1 = n -> claude_stack s < big_blind_of n ->
        gpt_games_won (play_poker_hand engine s) = gpt_games_won s + 1
        /\ claude_games_won (play_poker_hand engine s) = claude_games_won s).
Proof.
  intros Hn. split; [unfold blinds; cbv zeta; f_equal; [f_equal|]; ring|].
  split.
  - intros m Hm. unfold small_blind_of, big_blind_of, blinds; cbn [fst snd].
    pose proof (Z.div_le_mono n m 10 ltac:(lia) Hm). lia.
  - intros engine s Hs Hc. unfold play_poker_hand.
    rewrite begin_hand_hand_number, Hs.
    unfold big_blind_of in Hc. destruct (blinds n) as [[lvl sb] bb]. simpl in Hc.
    change (claude_stack (begin_hand s)) with (claude_stack s).
    rewrite (proj2 (Z.ltb_lt _ _) Hc). simpl.
    unfold track_game_length. case_if; simpl; split; lia.
Qed.

Lemma blind_schedule_witness :
  blinds 25 = (2, 15, 30)
  /\ gpt_games_won (play_poker_hand (fun _ _ => {| run_pot := 0; run_allins := 0;
                                                    run_result := None |})
                                    (set_stack Claude 5 initial_state))
     = gpt_games_won (set_stack Claude 5 initial_state) + 1.
Proof.
  split.
  - destruct (blind_schedule 25 ltac:(lia)) as [H1 _]. rewrite H1. reflexivity.
  - destruct (blind_schedule 1 ltac:(lia)) as [_ [_ H3]].
    refine (proj1 (H3 _ _ _ _)); vm_compute; reflexivity.
Defined.

(** The hand reaches the engine when both stacks cover the big blind; the
    engine's final stacks are then settled by [after_engine]. *)
Lemma play_poker_hand_engine (engine : Engine) (s : GameState) (f : Z * Z) :
  big_blind_of (hand_number s + 1) <= claude_stack s ->
  big_blind_of (hand_number s + 1) <= gpt_stack s ->
  run_result (engine (Z.min (claude_stack s) (gpt_stack s))
                     (small_blind_of (hand_number s + 1))) = Some f ->
  play_poker_hand engine s
  = after_engine (Z.min (claude_stack s) (gpt_stack s)) f (engine_state engine s).
Proof.
  intros Hc Hg Hr. unfold play_poker_hand, engine_state.
  rewrite begin_hand_hand_number.
  unfold big_blind_of, small_blind_of in *.
  destruct (blinds (hand_number s + 1)) as [[lvl sb] bb]. simpl in *.
  change (claude_stack (begin_hand s)) with (claude_stack s).
  change (gpt_stack (begin_hand s)) with (gpt_stack s).
  rewrite (proj2 (Z.ltb_ge _ _) Hc), (proj2 (Z.ltb_ge _ _) Hg).
  simpl. rewrite Hr. reflexivity.
Qed.

Lemma check_game_over_cases (s : GameState) :
  (0 < claude_stack s -> 0 < gpt_stack s -> check_game_over s = s)
  /\ (claude_stack s <= 0 \/ gpt_stack s <= 0 ->
      claude_stack (check_game_over s) = 1000 /\ gpt_stack (check_game_over s) = 1000).
Proof.
  unfold check_game_over. split.
  - intros H1 H2. rewrite (proj2 (Z.leb_gt _ _) H1), (proj2 (Z.leb_gt _ _) H2). reflexivity.
  - intros H. destruct H as [H|H].
    + rewrite (proj2 (Z.leb_le _ _) H). simpl.
      split; reflexivity.
    + rewrite (proj2 (Z.leb_le _ _) H), orb_true_r. simpl.
      split; reflexivity.
Qed.

Lemma winner_check_game_over (s : GameState) :
  winner (check_game_over s) = winner s.
Proof.
  unfold check_game_over. destruct (_ || _); [|reflexivity].
  simpl. unfold track_game_length. case_if; reflexivity.
Qed.

(** Claim C1: the excess of each stack over [min(claude, gpt)] is re-added
    to the engine's final stack; when the engine's final stacks sum to
    twice the common initial stack, the two stacks sum after settlement to
    what they summed before the hand (and after the whole hand too when
    nobody busts); from a total of 2000 the total stays 2000 and no
    warning is logged; a warning does not stop the hand, which always gets
    a winner. With 1000/1000 before a hand at the 5/10 level and an engine
    report of 1020/980, the stacks end at 1020 and 980. *)
Theorem chip_conservation :
  (forall (engine : Engine) (s : GameState) (a b : Z),
     big_blind_of (hand_number s + 1) <= claude_stack s ->
     big_blind_of (hand_number s + 1) <= gpt_stack s ->
     let m := Z.min (claude_stack s) (gpt_stack s) in
     run_result (engine m (small_blind_of (hand_number s + 1))) = Some (a, b) ->
     a + b = 2 * m ->
     let st := settle m (a, b) (engine_state engine s) in
     let s' := play_poker_hand engine s in
     claude_stack st = a + (claude_stack s - m)
     /\ gpt_stack st = b + (gpt_stack s - m)
     /\ claude_stack st + gpt_stack st = claude_stack s + gpt_stack s
     /\ (0 < claude_stack st -> 0 < gpt_stack st ->
         claude_stack s' + gpt_stack s' = claude_stack s + gpt_stack s)
     /\ (claude_stack s + gpt_stack s = 2000 ->
         claude_stack s' + gpt_stack s' = 2000 /\ logs st = logs s)
     /\ logs st = (if Z.abs (claude_stack st + gpt_stack st - 2000) >? 1
                   then logs s ++ [LogChipWarning (claude_stack st + gpt_stack st)]
                   else logs s)
     /\ winner s' <> None)
  /\ (forall (engine : Engine) (s : GameState),
        claude_stack s = 1000 -> gpt_stack s = 1000 -> 0 <= hand_number s < 9 ->
        run_result (engine 1000 5) = Some (1020, 980) ->
        claude_stack (play_poker_hand engine s) = 1020
        /\ gpt_stack (play_poker_hand engine s) = 980).
Proof.
  split.
  - intros engine s a b Hc Hg m Hr Hab st s'.
    assert (Hplay : s' = after_engine m (a, b) (engine_state engine s))
      by (apply play_poker_hand_engine; assumption).
    assert (Ec : claude_stack st = a + (claude_stack s - m)) by reflexivity.
    assert (Eg : gpt_stack st = b + (gpt_stack s - m)) by reflexivity.
    assert (Esum : claude_stack st + gpt_stack st = claude_stack s + gpt_stack s)
      by (rewrite Ec, Eg; lia).
    assert (Hlog : logs st = (if Z.abs (claude_stack st + gpt_stack st - 2000) >? 1
                              then logs s ++ [LogChipWarning (claude_stack st + gpt_stack st)]
                              else logs s)) by reflexivity.
    pose proof (check_game_over_cases (record_history (record_winner (record_pots st))))
      as [Hkeep Hreset].
    change (claude_stack (record_history (record_winner (record_pots st))))
      with (claude_stack st) in Hkeep, Hreset.
    change (gpt_stack (record_history (record_winner (record_pots st))))
      with (gpt_stack st) in Hkeep, Hreset.
    assert (Hs' : s' = check_game_over (record_history (record_winner (record_pots st))))
      by exact Hplay.
    split; [exact Ec|]. split; [exact Eg|]. split; [exact Esum|].
    split.
    { intros H1 H2. rewrite Hs', Hkeep by assumption. exact Esum. }
    split.
    { intros H2000. split.
      - destruct (Z_lt_le_dec 0 (claude_stack st)), (Z_lt_le_dec 0 (gpt_stack st)).
        + rewrite Hs', Hkeep by assumption.
          change (claude_stack st + gpt_stack st = 2000). lia.
        + rewrite Hs'. destruct (Hreset ltac:(lia)) as [-> ->]. reflexivity.
        + rewrite Hs'. destruct (Hreset ltac:(lia)) as [-> ->]. reflexivity.
        + rewrite Hs'. destruct (Hreset ltac:(lia)) as [-> ->]. reflexivity.
      - rewrite Hlog, Esum, H2000. reflexivity. }
    split; [exact Hlog|].
    rewrite Hs', winner_check_game_over. discriminate.
  - intros engine s H1 H2 Hn Hr.
    assert (Hsb : small_blind_of (hand_number s + 1) = 5).
    { unfold small_blind_of, blinds. simpl.
      rewrite (Z.div_small (hand_number s + 1) 10) by lia. reflexivity. }
    assert (Hbb : big_blind_of (hand_number s + 1) = 10).
    { unfold big_blind_of, blinds. simpl.
      rewrite (Z.div_small (hand_number s + 1) 10) by lia. reflexivity. }
    rewrite play_poker_hand_engine with (f := (1020, 980));
      [| lia | lia | rewrite H1, H2, Hsb; exact Hr].
    rewrite H1, H2. change (Z.min 1000 1000) with 1000. unfold after_engine.
    set (st := settle 1000 (1020, 980) (engine_state engine s)).
    assert (Ec : claude_stack st = 1020)
      by (change (1020 + (claude_stack s - 1000) = 1020); lia).
    assert (Eg : gpt_stack st = 980)
      by (change (980 + (gpt_stack s - 1000) = 980); lia).
    pose proof (check_game_over_cases (record_history (record_winner (record_pots st))))
      as [Hk _].
    change (claude_stack (record_history (record_winner (record_pots st))))
      with (claude_stack st) in Hk.
    change (gpt_stack (record_history (record_winner (record_pots st))))
      with (gpt_stack st) in Hk.
    rewrite Hk by lia. split; assumption.
Qed.

Lemma chip_conservation_witness :
  let engine : Engine := fun m _ => {| run_pot := 40; run_allins := 0;
                                       run_result := Some (m + 20, m - 20) |} in
  let s := set_stack Claude 1200 (set_stack GPT 800 initial_state) in
  claude_stack (play_poker_hand engine s) + gpt_stack (play_poker_hand engine s) = 2000
  /\ claude_stack (play_poker_hand engine initial_state) = 1020
  /\ gpt_stack (play_poker_hand engine initial_state) = 980.
Proof.
  intros engine s. split.
  - destruct (proj1 chip_conservation engine s 820 780) as [_ [_ [_ [_ [H _]]]]];
      [vm_compute; congruence | vm_compute; congruence | reflexivity | reflexivity |].
    apply H. reflexivity.
  - apply (proj2 chip_conservation engine initial_state); try reflexivity. simpl; lia.
Defined.

Lemma record_winner_spec (x : GameState) :
  let p := if claude_stack x >? gpt_stack x then Claude else GPT in
  winner (record_winner x) = Some p /\ hand_win_recorded x (record_winner x) p.
Proof.
  unfold record_winner, hand_win_recorded. simpl.
  destruct (claude_stack x >? gpt_stack x); simpl; repeat split; reflexivity.
Qed.

Lemma hand_win_recorded_congr (a b w w' : GameState) (p : Seat) :
  claude_wins a = claude_wins b -> gpt_wins a = gpt_wins b ->
  claude_streak a = claude_streak b -> gpt_streak a = gpt_streak b ->
  claude_wins w = claude_wins w' -> gpt_wins w = gpt_wins w' ->
  claude_streak w = claude_streak w' -> gpt_streak w = gpt_streak w' ->
  hand_win_recorded a w p -> hand_win_recorded b w' p.
Proof.
  intros E1 E2 E3 E4 F1 F2 F3 F4. destruct p; simpl; lia.
Qed.

(** Claim C8: after a hand the engine completed, the declared winner is
    Claude when Claude's settled stack is strictly higher and GPT
    otherwise, equal stacks included; the winner's hand-win counter and
    streak are incremented and the loser's streak reset to 0 at the
    update of lines 694-703, and these counters stand at the end of the
    hand unless a stack reached 0 (the bust reset of claim C2 clears
    them). *)
Theorem hand_winner_by_stacks (engine : Engine) (s : GameState) (f : Z * Z) :
  big_blind_of (hand_number s + 1) <= claude_stack s ->
  big_blind_of (hand_number s + 1) <= gpt_stack s ->
  let m := Z.min (claude_stack s) (gpt_stack s) in
  run_result (engine m (small_blind_of (hand_number s + 1))) = Some f ->
  let st := settle m f (engine_state engine s) in
  let p := if claude_stack st >? gpt_stack st then Claude else GPT in
  let s' := play_poker_hand engine s in
  winner s' = Some p
  /\ (claude_stack st = gpt_stack st -> p = GPT)
  /\ hand_win_recorded s (record_winner (record_pots st)) p
  /\ (0 < claude_stack st -> 0 < gpt_stack st -> hand_win_recorded s s' p).
Proof.
  intros Hc Hg m Hr st p s'.
  assert (Hs' : s' = check_game_over (record_history (record_winner (record_pots st))))
    by (apply play_poker_hand_engine; assumption).
  destruct (record_winner_spec (record_pots st)) as [Hw Hrec].
  change (claude_stack (record_pots st)) with (claude_stack st) in Hw, Hrec.
  change (gpt_stack (record_pots st)) with (gpt_stack st) in Hw, Hrec.
  fold p in Hw, Hrec.
  assert (Hrec' : hand_win_recorded s (record_winner (record_pots st)) p)
    by (eapply hand_win_recorded_congr; [..| exact Hrec]; reflexivity).
  split.
  - rewrite Hs', winner_check_game_over. exact Hw.
  - split.
    + intros E. unfold p. rewrite E, Z.gtb_ltb, Z.ltb_irrefl. reflexivity.
    + split; [exact Hrec'|].
      intros H1 H2.
      pose proof (check_game_over_cases (record_history (record_winner (record_pots st))))
        as [Hk _].
      rewrite Hs', Hk by exact H1 || exact H2.
      eapply hand_win_recorded_congr; [..| exact Hrec']; reflexivity.
Qed.

Lemma hand_winner_by_stacks_witness :
  let engine : Engine := fun m _ => {| run_pot := 40; run_allins := 0;
                                       run_result := Some (m, m) |} in
  winner (play_poker_hand engine initial_state) = Some GPT.
Proof.
  intros engine.
  destruct (hand_winner_by_stacks engine initial_state (1000, 1000)) as [H _];
    [vm_compute; congruence | vm_compute; congruence | reflexivity |].
  exact H.
Defined.

(** The game-win counters across one step: unchanged, or exactly one of
    them incremented by one. *)
Lemma after_engine_frame (m : Z) (f : Z * Z) (x : GameState) :
  hand_number (after_engine m f x) = hand_number x
  /\ total_hands (after_engine m f x) = total_hands x
  /\ ((claude_games_won (after_engine m f x) = claude_games_won x
       /\ gpt_games_won (after_engine m f x) = gpt_games_won x)
      \/ (claude_games_won (after_engine m f x) = claude_games_won x + 1
          /\ gpt_games_won (after_engine m f x) = gpt_games_won x)
      \/ (claude_games_won (after_engine m f x) = claude_games_won x
          /\ gpt_games_won (after_engine m f x) = gpt_games_won x + 1)).
Proof.
  unfold after_engine, check_game_over.
  set (y := record_history (record_winner (record_pots (settle m f x)))).
  assert (Hy : hand_number y = hand_number x /\ total_hands y = total_hands x
               /\ claude_games_won y = claude_games_won x
               /\ gpt_games_won y = gpt_games_won x) by (repeat split).
  destruct Hy as [Y1 [Y2 [Y3 Y4]]].
  case_if.
  - unfold track_game_length. case_if; case_if; simpl; lia.
  - lia.
Qed.

Lemma bust_before_hand_frame (loser : Seat) (bb : Z) (x : GameState) :
  hand_number (bust_before_hand loser bb x) = hand_number x
  /\ total_hands (bust_before_hand loser bb x) = total_hands x
  /\ claude_games_won (bust_before_hand loser bb x)
     = claude_games_won x + match loser with GPT => 1 | Claude => 0 end
  /\ gpt_games_won (bust_before_hand loser bb x)
     = gpt_games_won x + match loser with Claude => 1 | GPT => 0 end.
Proof.
  unfold bust_before_hand, track_game_length. destruct loser; case_if; simpl; lia.
Qed.

(** Claim C2 (pre-hand bust path). A seat that cannot pay the big blind
    busts before the hand: the opponent is credited the game, the stacks
    go back to 1000/1000, the wait flag is set and the hand-win counts,
    histories, biggest pot, all-in count, pot list and match hand count are
    cleared, but both streaks are kept; the post-hand bust path, in
    contrast, clears both streaks. *)
Theorem pre_hand_bust_keeps_streaks (engine : Engine) (s : GameState) :
  claude_stack s < big_blind_of (hand_number s + 1) ->
  let s' := play_poker_hand engine s in
  gpt_games_won s' = gpt_games_won s + 1
  /\ claude_stack s' = 1000 /\ gpt_stack s' = 1000 /\ wait_for_new_game s' = true
  /\ claude_wins s' = 0 /\ gpt_wins s' = 0 /\ hand_history s' = []
  /\ stack_history s' = [] /\ biggest_pot s' = 0 /\ total_allins s' = 0
  /\ game_pots s' = [] /\ current_game_hands s' = 0
  /\ claude_streak s' = claude_streak s /\ gpt_streak s' = gpt_streak s
  /\ (forall x, claude_streak (reset_after_hand x) = 0
                /\ gpt_streak (reset_after_hand x) = 0).
Proof.
  intros Hc s'.
  assert (Hs' : s' = bust_before_hand Claude (big_blind_of (hand_number s + 1)) (begin_hand s)).
  { unfold s', play_poker_hand. rewrite begin_hand_hand_number.
    unfold big_blind_of in *. destruct (blinds (hand_number s + 1)) as [[lvl sb] bb].
    simpl in Hc |- *. change (claude_stack (begin_hand s)) with (claude_stack s).
    rewrite (proj2 (Z.ltb_lt _ _) Hc). reflexivity. }
  destruct (bust_before_hand_frame Claude (big_blind_of (hand_number s + 1)) (begin_hand s))
    as [_ [_ [_ G]]].
  rewrite Hs'. split; [exact G|].
  unfold bust_before_hand, track_game_length. case_if; simpl; repeat split.
Qed.

Lemma pre_hand_bust_keeps_streaks_witness :
  let engine : Engine := fun _ _ => {| run_pot := 0; run_allins := 0;
                                       run_result := None |} in
  let s := {| hand_number := 0; total_hands := 0; current_game_hands := 4;
              round := RHandPause; pot := 0; claude_stack := 5; gpt_stack := 1995;
              winner := Some GPT; dealer := Claude; wait_for_new_game := false;
              claude_wins := 1; gpt_wins := 3; claude_games_won := 0; gpt_games_won := 0;
              biggest_pot := 600; total_allins := 1; game_pots := [20; 600; 40];
              longest_game := 0; shortest_game := 0; hand_history := [];
              stack_history := []; claude_streak := 0; gpt_streak := 3; logs := [] |} in
  gpt_streak (play_poker_hand engine s) = 3.
Proof.
  intros engine s.
  destruct (pre_hand_bust_keeps_streaks engine s) as [_ [_ [_ [_ [_ [_ [_ [_ [_ [_ [_ [_ [_ [H _]]]]]]]]]]]]]];
    [vm_compute; reflexivity |].
  exact H.
Defined.

(** Claim C10: the match-reset blocks keep [hand_number], [total_hands]
    and the game-win counters; over a whole hand [hand_number] and
    [total_hands] grow by one and the game-win counters either stay or one
    of them grows by one; so the next hand, the first of a new match
    included, takes its blinds from the never-reset hand number. *)
Theorem match_reset_frame (engine : Engine) (s : GameState) :
  (forall x, hand_number (reset_before_hand x) = hand_number x
             /\ total_hands (reset_before_hand x) = total_hands x
             /\ claude_games_won (reset_before_hand x) = claude_games_won x
             /\ gpt_games_won (reset_before_hand x) = gpt_games_won x)
  /\ (forall x, hand_number (reset_after_hand x) = hand_number x
                /\ total_hands (reset_after_hand x) = total_hands x
                /\ claude_games_won (reset_after_hand x) = claude_games_won x
                /\ gpt_games_won (reset_after_hand x) = gpt_games_won x)
  /\ (let s' := play_poker_hand engine s in
      hand_number s' = hand_number s + 1
      /\ total_hands s' = total_hands s + 1
      /\ ((claude_games_won s' = claude_games_won s
           /\ gpt_games_won s' = gpt_games_won s)
          \/ (claude_games_won s' = claude_games_won s + 1
              /\ gpt_games_won s' = gpt_games_won s)
          \/ (claude_games_won s' = claude_games_won s
              /\ gpt_games_won s' = gpt_games_won s + 1))
      /\ blinds (hand_number s' + 1) = blinds (hand_number s + 2)).
Proof.
  split; [intros x; repeat split|]. split; [intros x; repeat split|].
  intros s'.
  assert (Hframe : hand_number s' = hand_number s + 1
                   /\ total_hands s' = total_hands s + 1
                   /\ ((claude_games_won s' = claude_games_won s
                        /\ gpt_games_won s' = gpt_games_won s)
                       \/ (claude_games_won s' = claude_games_won s + 1
                           /\ gpt_games_won s' = gpt_games_won s)
                       \/ (claude_games_won s' = claude_games_won s
                           /\ gpt_games_won s' = gpt_games_won s + 1))).
  { unfold s', play_poker_hand.
    destruct (blinds (hand_number (begin_hand s))) as [[lvl sb] bb].
    case_if.
    - destruct (bust_before_hand_frame Claude bb (begin_hand s)) as [A [B [C D]]].
      rewrite A, B, C, D. simpl. lia.
    - case_if.
      + destruct (bust_before_hand_frame GPT bb (begin_hand s)) as [A [B [C D]]].
        rewrite A, B, C, D. simpl. lia.
      + destruct (run_result _) as [f|].
        * destruct (after_engine_frame (Z.min (claude_stack (begin_hand s))
                                               (gpt_stack (begin_hand s))) f
                      (observe_run (engine (Z.min (claude_stack (begin_hand s))
                                                  (gpt_stack (begin_hand s))) sb)
                                   (begin_hand s))) as [A [B C]].
          rewrite A, B. simpl in C |- *. lia.
        * simpl. lia. }
  destruct Hframe as [H1 [H2 H3]].
  split; [exact H1|]. split; [exact H2|]. split; [exact H3|].
  rewrite H1. f_equal. ring.
Qed.

(** ** Equity estimator *)

Import Equity.

(** Claim C6: when either side has not exactly two recognized hole cards
    the body returns [(50.0, 50.0)] as a normal value, and when the body
    raises the [except] clause returns [(50.0, 50.0)]. *)
Theorem win_probabilities_fallback (ev : Evaluator) (draw : Sampler)
    (claude gpt community : list pystr) :
  (List.length (recognized claude) <> 2%nat \/ List.length (recognized gpt) <> 2%nat ->
   win_probabilities_body ev draw claude gpt community = Some (50.0, 50.0)%float
   /\ calculate_win_probabilities ev draw claude gpt community = (50.0, 50.0)%float)
  /\ (win_probabilities_body ev draw claude gpt community = None ->
      calculate_win_probabilities ev draw claude gpt community = (50.0, 50.0)%float).
Proof.
  split.
  - intros H. unfold calculate_win_probabilities, win_probabilities_body.
    destruct claude as [|c cs]; [split; reflexivity|].
    destruct gpt as [|g gs]; [split; reflexivity|].
    assert (E : (Nat.eqb (List.length (recognized (c :: cs))) 2
                 && Nat.eqb (List.length (recognized (g :: gs))) 2) = false).
    { destruct H as [H|H]; apply Nat.eqb_neq in H; rewrite H;
        [reflexivity | apply andb_false_r]. }
    cbv beta iota zeta. rewrite E. split; reflexivity.
  - intros H. unfold calculate_win_probabilities. rewrite H. reflexivity.
Qed.

Lemma win_probabilities_fallback_witness :
  calculate_win_probabilities (fun _ _ => Some 0) (fun _ _ _ => [])
    [u "A" ++ [SPADE]] [u "K" ++ [HEART]; u "Q" ++ [HEART]] [] = (50.0, 50.0)%float.
Proof.
  refine (proj2 (proj1 (win_probabilities_fallback _ _ _ _ _) _)).
  left. vm_compute. discriminate.
Defined.

(** The result of the body on a complete five-card board, for every
    sampler. *)
Lemma win_probabilities_body_river (ev : Evaluator) (draw : Sampler)
    (claude gpt community : list pystr) (cs gs : Z) :
  List.length (recognized claude) = 2%nat ->
  List.length (recognized gpt) = 2%nat ->
  List.length (recognized community) = 5%nat ->
  ev (recognized claude) (recognized community) = Some cs ->
  ev (recognized gpt) (recognized community) = Some gs ->
  win_probabilities_body ev draw claude gpt community =
    Some (if cs >? gs then (100.0, 0.0)
          else if gs >? cs then (0.0, 100.0) else (50.0, 50.0))%float.
Proof.
  intros Hc Hg Hb Ec Eg. unfold win_probabilities_body.
  destruct claude as [|c cl]; [discriminate Hc|].
  destruct gpt as [|g gl]; [discriminate Hg|].
  cbv beta iota zeta. rewrite Hc, Hg, Hb, Ec, Eg. reflexivity.
Qed.

(** Claim C7: with two recognized hole cards on each side and five
    recognized board cards the result is [(100.0, 0.0)], [(0.0, 100.0)] or
    [(50.0, 50.0)] by strict comparison of the two scores, whatever the
    random source draws. *)
Theorem win_probabilities_full_board (ev : Evaluator) (draw : Sampler)
    (claude gpt community : list pystr) (cs gs : Z) :
  List.length (recognized claude) = 2%nat ->
  List.length (recognized gpt) = 2%nat ->
  List.length (recognized community) = 5%nat ->
  ev (recognized claude) (recognized community) = Some cs ->
  ev (recognized gpt) (recognized community) = Some gs ->
  calculate_win_probabilities ev draw claude gpt community =
    (if cs >? gs then (100.0, 0.0)
     else if gs >? cs then (0.0, 100.0) else (50.0, 50.0))%float
  /\ (forall draw' : Sampler,
        calculate_win_probabilities ev draw' claude gpt community
        = calculate_win_probabilities ev draw claude gpt community).
Proof.
  intros Hc Hg Hb Ec Eg.
  assert (E : forall d : Sampler, calculate_win_probabilities ev d claude gpt community =
                (if cs >? gs then (100.0, 0.0)
                 else if gs >? cs then (0.0, 100.0) else (50.0, 50.0))%float).
  { intros d. unfold calculate_win_probabilities.
    rewrite (win_probabilities_body_river ev d claude gpt community cs gs Hc Hg Hb Ec Eg).
    reflexivity. }
  split; [apply E|]. intros d. rewrite !E. reflexivity.
Qed.

Lemma win_probabilities_full_board_witness :
  let ev : Evaluator := fun hole _ =>
    if existsb (fun c => Ascii.eqb (crank c) "A"%char) hole then Some 9 else Some 1 in
  let draw : Sampler := fun _ population k => firstn (Z.to_nat k) population in
  calculate_win_probabilities ev draw
    [u "A" ++ [SPADE]; u "K" ++ [SPADE]] [u "2" ++ [HEART]; u "7" ++ [CLUB]]
    [u "3" ++ [DIAMOND]; u "8" ++ [DIAMOND]; u "J" ++ [CLUB]; u "Q" ++ [HEART];
     u "10" ++ [SPADE]] = (100.0, 0.0)%float.
Proof.
  intros ev draw.
  refine (proj1 (win_probabilities_full_board ev draw _ _ _ 9 1 _ _ _ _ _));
    vm_compute; reflexivity.
Defined.

(** *** Tallies of the Monte Carlo loop *)

(** Each pass of the loop adds one to exactly one of the three counters. *)
Lemma simulate_total (ev : Evaluator) (draw : Sampler)
    (ch gh board deck : list Card) (k : Z) (iterations : list nat)
    (a b c cw gw ties : nat) :
  simulate ev draw ch gh board deck k iterations (a, b, c) = Some (cw, gw, ties) ->
  (cw + gw + ties = a + b + c + List.length iterations)%nat.
Proof.
  revert a b c. induction iterations as [|i rest IH]; intros a b c H.
  - simpl in H. injection H as <- <- <-. simpl. lia.
  - simpl in H. unfold simulate_once in H.
    destruct (random_sample draw i deck k) as [rc|]; [|discriminate H].
    destruct (ev ch (board ++ rc)) as [x|]; [|discriminate H].
    destruct (ev gh (board ++ rc)) as [y|]; [|discriminate H].
    simpl. destruct (x >? y); [|destruct (y >? x)]; apply IH in H; lia.
Qed.

Lemma int_of_nat_succ (n : nat) : PrimInt63.add (int_of_nat n) int1 = int_of_nat (S n).
Proof.
  apply Uint63.to_Z_inj. rewrite Uint63.add_spec. unfold int_of_nat.
  rewrite !Uint63.of_Z_spec, Nat2Z.inj_succ.
  change (Uint63.to_Z int1) with 1%Z. rewrite Zplus_mod_idemp_l. reflexivity.
Qed.

Lemma int_of_nat_0 : int_of_nat 0 = int0.
Proof. reflexivity. Qed.

Lemma to_Z_int_of_nat (n : nat) : (n <= 1000)%nat -> Uint63.to_Z (int_of_nat n) = Z.of_nat n.
Proof.
  intros H. unfold int_of_nat. rewrite Uint63.of_Z_spec. apply Z.mod_small.
  assert (Uint63.wB = 9223372036854775808) by reflexivity. lia.
Qed.

Lemma ties_agree_spec (fuel : nat) (w : PrimInt63.int) (a : nat) :
  ties_agree fuel w (int_of_nat a) = true ->
  forall j, (j < fuel)%nat ->
  PrimFloat.Leibniz.eqb (percentage_int w (int_of_nat (a + j)))
    (percentage_int (PrimInt63.add w (PrimInt63.div (int_of_nat (a + j)) int2))
                    (PrimInt63.mod (int_of_nat (a + j)) int2)) = true.
Proof.
  revert a. induction fuel as [|f IH]; intros a H j Hj; [lia|].
  simpl in H. apply andb_prop in H. destruct H as [H0 H1].
  destruct j as [|j].
  - rewrite Nat.add_0_r. exact H0.
  - rewrite int_of_nat_succ in H1. rewrite <- Nat.add_succ_comm.
    apply IH; [exact H1 | lia].
Qed.

Lemma wins_agree_spec (fuel : nat) (a : nat) :
  wins_agree fuel (int_of_nat a) = true ->
  forall k, (k < fuel)%nat -> ties_agree (fuel - k) (int_of_nat (a + k)) int0 = true.
Proof.
  revert a. induction fuel as [|f IH]; intros a H k Hk; [lia|].
  simpl in H. apply andb_prop in H. destruct H as [H0 H1].
  destruct k as [|k].
  - rewrite Nat.add_0_r. exact H0.
  - rewrite int_of_nat_succ in H1. rewrite <- Nat.add_succ_comm.
    apply IH; [exact H1 | lia].
Qed.

Lemma wins_agree_all : wins_agree 501 (int_of_nat 0) = true.
Proof. vm_compute. reflexivity. Qed.

Lemma percentage_as_int (w t : nat) :
  percentage w t = percentage_int (int_of_nat w) (int_of_nat t).
Proof. reflexivity. Qed.

(** The float percentage of a tally depends only on [wins + ties / 2]. *)
Lemma percentage_half_step (w t : nat) :
  (w + t <= 500)%nat -> percentage w t = percentage (w + t / 2) (t mod 2).
Proof.
  intros Hwt.
  pose proof (wins_agree_spec 501 0 wins_agree_all w ltac:(lia)) as H1.
  rewrite <- int_of_nat_0 in H1. simpl Nat.add in H1.
  pose proof (ties_agree_spec _ _ 0 H1 t ltac:(lia)) as H2. simpl Nat.add in H2.
  apply FloatAxioms.Leibniz.eqb_spec in H2.
  rewrite !percentage_as_int, H2. f_equal.
  - apply Uint63.to_Z_inj.
    rewrite Uint63.add_spec, Uint63.div_spec, !to_Z_int_of_nat by lia.
    unfold int_of_nat. rewrite Uint63.of_Z_spec, Nat2Z.inj_add, Nat2Z.inj_div.
    reflexivity.
  - apply Uint63.to_Z_inj.
    pose proof (Nat.mod_upper_bound t 2 ltac:(lia)).
    rewrite Uint63.mod_spec, (to_Z_int_of_nat t), (to_Z_int_of_nat (t mod 2)) by lia.
    rewrite Nat2Z.inj_mod. reflexivity.
Qed.

(** The float percentage of a tally is that of its half-points. *)
Lemma percentage_half_points (w t : nat) :
  (w + t <= 500)%nat -> percentage w t = percentage_half (2 * w + t).
Proof.
  intros H. rewrite percentage_half_step by exact H. unfold percentage_half.
  f_equal.
  - rewrite (Nat.mul_comm 2 w), Nat.div_add_l by lia. reflexivity.
  - rewrite (Nat.add_comm (2 * w) t), (Nat.mul_comm 2 w), Nat.Div0.mod_add. reflexivity.
Qed.

(** The checks hold at each of the [1001] half-point totals. *)
Lemma half_points_all : forallb half_points_ok (seq 0 1001) = true.
Proof. vm_compute. reflexivity. Qed.

(** Every tally of [500] simulations passes the checks of [tally_ok]. *)
Lemma tally_checks (cw gw ties : nat) :
  (cw + gw + ties = 500)%nat ->
  pair_in_range (tally_pair cw gw ties) = true /\ unrounded_close cw gw ties = true.
Proof.
  intros H.
  assert (Hx : half_points_ok (2 * cw + ties) = true).
  { apply (proj1 (forallb_forall _ _) half_points_all). apply in_seq. lia. }
  unfold half_points_ok in Hx.
  rewrite <- percentage_half_points in Hx by lia.
  replace (1000 - (2 * cw + ties))%nat with (2 * gw + ties)%nat in Hx by lia.
  rewrite <- percentage_half_points in Hx by lia.
  apply andb_prop in Hx. exact Hx.
Qed.

(** The exact percentages of a tally of [500] simulations sum to [100]. *)
Lemma percentage_exact_sum (cw gw ties : nat) :
  (cw + gw + ties = 500)%nat ->
  (percentage_exact cw ties + percentage_exact gw ties == 100)%Q.
Proof.
  intros H. unfold percentage_exact.
  replace (Z.of_nat gw) with (500 - Z.of_nat cw - Z.of_nat ties)%Z by lia.
  unfold Z.sub. rewrite !inject_Z_plus, !inject_Z_opp. field.
Qed.

(** Claim C9, counterexample: for the tally of [0] wins, [479] wins and
    [21] ties ([500] simulations) the two unrounded percentages are the
    floats [2.1] and [97.89999999999999]; their float sum is not [100.0]
    and neither is their exact sum. *)
Lemma tally_percentages_not_100 :
  (0 + 479 + 21 = simulations)%nat
  /\ (percentage 0 21 + percentage 479 21)%float <> 100%float
  /\ ~ (float_Q (percentage 0 21) + float_Q (percentage 479 21) == 100)%Q.
Proof.
  split; [reflexivity|]. split.
  - intros H. apply FloatAxioms.Leibniz.eqb_spec in H. vm_compute in H. discriminate H.
  - intros H. apply Qeq_bool_iff in H. vm_compute in H. discriminate H.
Qed.

(** Claim C9, amended: on the Monte Carlo path either the body raises
    and the result is [(50.0, 50.0)], or the loop has tallied each of the
    [500] simulations once, the exact percentages [(wins + 0.5 * ties) /
    500 * 100] of the two sides sum to exactly [100], the float ones to
    [100] within [10^-12], and the result is their rounding.  In both cases
    both returned values are finite and in [[0, 100]] and their exact sum
    is within [0.1] of [100]. *)
Theorem win_probabilities_monte_carlo (ev : Evaluator) (draw : Sampler)
    (claude gpt community : list pystr) :
  List.length (recognized claude) = 2%nat ->
  List.length (recognized gpt) = 2%nat ->
  (List.length (recognized community) < 5)%nat ->
  let r := calculate_win_probabilities ev draw claude gpt community in
  pair_in_range r = true
  /\ ((win_probabilities_body ev draw claude gpt community = None
       /\ r = (50.0, 50.0)%float)
      \/ exists cw gw ties,
           (cw + gw + ties = simulations)%nat
           /\ r = (py_round1 (percentage cw ties), py_round1 (percentage gw ties))
           /\ (percentage_exact cw ties + percentage_exact gw ties == 100)%Q
           /\ (Qabs (float_Q (percentage cw ties) + float_Q (percentage gw ties) - 100)
               <= 1 # 1000000000000)%Q).
Proof.
  intros Hc Hg Hb r. unfold r, calculate_win_probabilities.
  assert (Hn : (5 - Z.of_nat (List.length (recognized community)) =? 0)%Z = false).
  { apply Z.eqb_neq. lia. }
  assert (Body : win_probabilities_body ev draw claude gpt community =
    let claude_hole := recognized claude in
    let gpt_hole := recognized gpt in
    let board := recognized community in
    let used := claude_hole ++ gpt_hole ++ board in
    let deck := filter (fun c => negb (existsb (card_eqb c) used)) all_cards_52 in
    match simulate ev draw claude_hole gpt_hole board deck
            (5 - Z.of_nat (List.length board))%Z (seq 0 simulations) (0, 0, 0)%nat with
    | Some (cw, gw, ties) =>
        Some (py_round1 (percentage cw ties), py_round1 (percentage gw ties))
    | None => None
    end).
  { unfold win_probabilities_body.
    destruct claude as [|c cl]; [discriminate Hc|].
    destruct gpt as [|g gl]; [discriminate Hg|].
    cbv beta iota zeta. rewrite Hc, Hg, Hn. reflexivity. }
  rewrite Body. cbv beta iota zeta.
  match goal with
  | |- context [simulate ?a ?b ?c ?d ?e ?f ?g ?h ?i] =>
      destruct (simulate a b c d e f g h i) as [[[cw gw] ties]|] eqn:Hs
  end.
  - apply simulate_total in Hs. rewrite length_seq in Hs. unfold simulations in *. simpl in Hs.
    destruct (tally_checks cw gw ties ltac:(lia)) as [H1 H2].
    split; [exact H1|]. right. exists cw, gw, ties.
    split; [exact Hs|]. split; [reflexivity|]. split.
    + apply percentage_exact_sum. exact Hs.
    + apply Qle_bool_imp_le. exact H2.
  - split; [vm_compute; reflexivity|]. left. split; reflexivity.
Qed.

Lemma win_probabilities_monte_carlo_witness :
  let ev : Evaluator := fun hole board =>
    Some (Z.of_nat (List.length (filter (fun c => Ascii.eqb (crank c) "A"%char)
                                        (hole ++ board)))) in
  let draw : Sampler := fun i population k =>
    firstn (Z.to_nat k) (skipn (i mod 40) population) in
  pair_in_range
    (calculate_win_probabilities ev draw
       [u "A" ++ [SPADE]; u "K" ++ [SPADE]] [u "2" ++ [HEART]; u "7" ++ [CLUB]]
       [u "3" ++ [DIAMOND]; u "8" ++ [DIAMOND]; u "J" ++ [CLUB]]) = true.
Proof.
  intros ev draw.
  refine (proj1 (win_probabilities_monte_carlo ev draw _ _ _ _ _ _));
    first [apply Nat.ltb_lt; vm_compute; reflexivity | vm_compute; reflexivity].
Defined.

(** ** Display helpers *)

Lemma tl_skipn {A} (l : list A) : tl l = skipn 1 l.
Proof. destruct l; reflexivity. Qed.

(** One append-and-drop step on the last [n] entries of a history is the
    last [n] entries of the longer history. *)
Lemma py_tail_push {A} (n : nat) (l : list A) (x : A) :
  (0 < n)%nat ->
  (let b := Display.py_tail n l ++ [x] in if Nat.ltb n (List.length b) then tl b else b)
  = Display.py_tail n (l ++ [x]).
Proof.
  intros Hn. unfold Display.py_tail. cbv zeta.
  rewrite length_app, length_app, length_skipn. simpl List.length.
  destruct (Nat.lt_ge_cases (List.length l) n) as [H|H].
  - replace (List.length l - n)%nat with 0%nat by lia.
    replace (List.length l + 1 - n)%nat with 0%nat by lia.
    rewrite (proj2 (Nat.ltb_ge _ _)) by lia. reflexivity.
  - rewrite (proj2 (Nat.ltb_lt _ _)) by lia.
    replace (List.length l + 1 - n)%nat with (1 + (List.length l - n))%nat by lia.
    rewrite tl_skipn, <- skipn_skipn, (skipn_app (List.length l - n)).
    replace (List.length l - n - List.length l)%nat with 0%nat by lia.
    reflexivity.
Qed.



Lemma py_tail_py_tail {A} (m n : nat) (l : list A) :
  (m <= n)%nat -> Display.py_tail m (Display.py_tail n l) = Display.py_tail m l.
Proof.
  intros H. unfold Display.py_tail. rewrite length_skipn, skipn_skipn. f_equal. lia.
Qed.





(** Extra: [get_state] shows the last 100 log lines and the last 15
    thoughts of the whole history, although the buffers only keep the
    last 200 and 20. *)
Theorem get_state_recent (all_logs all_thoughts : list string) :
  Display.get_state (Display.py_tail 200 all_logs) (Display.py_tail 20 all_thoughts)
  = (Display.py_tail 100 all_logs, Display.py_tail 15 all_thoughts).
Proof.
  unfold Display.get_state. rewrite !py_tail_py_tail by lia. reflexivity.
Qed.

(** Extra: [add_thought] appends ["PLAYER: thought"] and keeps the last
    20 thoughts; without a thought it uses one of the six templates of
    [claude] or [gpt], and for any other player it raises [KeyError]. *)
Theorem add_thought_behaviour (choice : list string -> string)
    (Hchoice : forall l, l <> [] -> In (choice l) l)
    (player : string) (history : list string) :
  (forall t, Display.add_thought choice player (Some t) (Display.py_tail 20 history)
             = Some (Display.py_tail 20 (history ++ [(Display.py_upper player ++ ": " ++ t)%string])))
  /\ (forall ts, Display.THOUGHT_TEMPLATES player = Some ts ->
      exists t, In t ts
        /\ Display.add_thought choice player None (Display.py_tail 20 history)
           = Some (Display.py_tail 20 (history ++ [(Display.py_upper player ++ ": " ++ t)%string])))
  /\ (Display.THOUGHT_TEMPLATES player <> None <-> player = "claude"%string \/ player = "gpt"%string)
  /\ (Display.THOUGHT_TEMPLATES player = None ->
      Display.add_thought choice player None (Display.py_tail 20 history) = None).
Proof.
  split; [|split; [|split]].
  - intros t. unfold Display.add_thought. f_equal.
    exact (py_tail_push 20 history _ ltac:(lia)).
  - intros ts Hts. exists (choice ts). split.
    + apply Hchoice. intros ->. unfold Display.THOUGHT_TEMPLATES in Hts.
      destruct (String.eqb player "claude"); [discriminate|].
      destruct (String.eqb player "gpt"); discriminate.
    + unfold Display.add_thought. rewrite Hts. simpl. f_equal.
      exact (py_tail_push 20 history _ ltac:(lia)).
  - unfold Display.THOUGHT_TEMPLATES. split.
    + destruct (String.eqb player "claude") eqn:E1; [left; apply String.eqb_eq, E1|].
      destruct (String.eqb player "gpt") eqn:E2; [right; apply String.eqb_eq, E2|].
      intros H; exfalso; apply H; reflexivity.
    + intros [->| ->]; discriminate.
  - intros H. unfold Display.add_thought. rewrite H. reflexivity.
Qed.

Lemma hd_in (l : list string) : l <> [] -> In (hd ""%string l) l.
Proof. destruct l as [|x l]; [intros H; contradiction H; reflexivity | left; reflexivity]. Qed.

Lemma add_thought_behaviour_witness :
  exists t, Display.add_thought (hd ""%string) "gpt" None (Display.py_tail 20 [])
                = Some (Display.py_tail 20 ([] ++ [("GPT: " ++ t)%string])).
Proof.
  destruct (proj1 (proj2 (add_thought_behaviour (hd ""%string) hd_in "gpt" []))
              _ eq_refl) as [t [_ E]].
  exists t. exact E.
Defined.

Lemma card_eqb_eq (a b : Card) : card_eqb a b = true -> a = b.
Proof.
  destruct a as [s1 r1], b as [s2 r2]. unfold card_eqb. simpl.
  intros H. apply andb_prop in H as [H1 H2].
  apply Ascii.eqb_eq in H1, H2. subst. reflexivity.
Qed.

Lemma format_card_all_52 :
  forallb (fun c => match Display.format_card (Display.card_str c) with
                    | Some f => match card_to_pypoker_obj f with
                                | Some c' => card_eqb c' c
                                | None => false
                                end
                    | None => false
                    end) all_cards_52 = true.
Proof. vm_compute. reflexivity. Qed.

(** Extra: for each of the 52 cards, [format_card] of its two-letter
    string gives a display string that [card_to_pypoker_obj] reads back as
    the same card; the empty string and ["XX"] give the card back, which
    is never read as a card; a one-character string raises [IndexError]. *)
Theorem format_card_round_trip (c : Card) :
  In c all_cards_52 ->
  (exists f, Display.format_card (Display.card_str c) = Some f
             /\ card_to_pypoker_obj f = Some c)
  /\ Display.format_card [] = Some [CARD_BACK]
  /\ Display.format_card (u "XX") = Some [CARD_BACK]
  /\ card_to_pypoker_obj [CARD_BACK] = None
  /\ (forall k, Display.format_card [k] = None).
Proof.
  intros Hin. split; [|split; [reflexivity|split; [reflexivity|split; [reflexivity|]]]].
  - pose proof (proj1 (forallb_forall _ _) format_card_all_52 c Hin) as H. simpl in H.
    destruct (Display.format_card (Display.card_str c)) as [f|]; [|discriminate].
    exists f. split; [reflexivity|].
    destruct (card_to_pypoker_obj f) as [c'|]; [|discriminate].
    apply card_eqb_eq in H. subst. reflexivity.
  - intros k. unfold Display.format_card. simpl. rewrite andb_false_r. reflexivity.
Qed.

Lemma format_card_round_trip_witness :
  In {| csuit := "H"; crank := "T" |} all_cards_52
  /\ exists f, Display.format_card (Display.card_str {| csuit := "H"; crank := "T" |}) = Some f
       /\ card_to_pypoker_obj f = Some {| csuit := "H"; crank := "T" |}.
Proof.
  assert (H : In {| csuit := "H"; crank := "T" |} all_cards_52) by (simpl; tauto).
  split; [exact H | exact (proj1 (format_card_round_trip _ H))].
Defined.

Lemma hand_category_mono (r1 r2 : Z) :
  r1 <= r2 -> Display.hand_category r1 <= Display.hand_category r2.
Proof.
  intros H. unfold Display.hand_category.
  pose proof (Z.div_le_mono r1 r2 1000000 ltac:(lia) H). lia.
Qed.

(** Extra: [get_hand_rank_name] names the category [rank // 1000000]
    (clamped to 0..8) in the list from "High Card" to "Straight Flush", so
    a higher score never gets a weaker name. *)
Theorem get_hand_rank_name_category (r1 r2 : Z) :
  Display.get_hand_rank_name r1
    = nth (Z.to_nat (Display.hand_category r1)) Display.hand_rank_names ""%string
  /\ (r1 <= r2 -> Display.hand_category r1 <= Display.hand_category r2).
Proof.
  split; [|apply hand_category_mono].
  unfold Display.get_hand_rank_name, Display.hand_category.
  pose proof (Z.div_mod r1 1000000 ltac:(lia)) as Hd.
  pose proof (Z.mod_pos_bound r1 1000000 ltac:(lia)) as Hm.
  set (q := r1 / 1000000) in *. set (m := r1 mod 1000000) in *.
  repeat match goal with
  | |- context [if r1 >=? ?k then _ else _] =>
      let E := fresh "E" in
      destruct (r1 >=? k) eqn:E; rewrite Z.geb_leb in E;
      [apply Z.leb_le in E | apply Z.leb_gt in E]
  end.
  all: first [ replace (Z.max 0 (Z.min 8 q)) with 8 by lia
              | replace (Z.max 0 (Z.min 8 q)) with 7 by lia
              | replace (Z.max 0 (Z.min 8 q)) with 6 by lia
              | replace (Z.max 0 (Z.min 8 q)) with 5 by lia
              | replace (Z.max 0 (Z.min 8 q)) with 4 by lia
              | replace (Z.max 0 (Z.min 8 q)) with 3 by lia
              | replace (Z.max 0 (Z.min 8 q)) with 2 by lia
              | replace (Z.max 0 (Z.min 8 q)) with 1 by lia
              | replace (Z.max 0 (Z.min 8 q)) with 0 by lia
              ]; reflexivity.
Qed.

Lemma get_hand_rank_name_category_witness :
  Display.hand_category 2500000 <= Display.hand_category 7100000.
Proof. apply (proj2 (get_hand_rank_name_category 2500000 7100000)). lia. Defined.

(** Extra: the winning-hand detail is "High Card" when any of the three
    card lists is empty (also after a pre-flop fold); otherwise it is one
    of the two fixed fallbacks, a tie naming the common score, or
    "X beats Y" where X is the name of the higher of the two evaluated
    scores, never a weaker category than Y. *)
Theorem winning_hand_detail_cases (ev : Evaluator) (cc gc bc : list pystr) :
  let d := Display.winning_hand_detail ev cc gc bc in
  let ch := somes (map Display.to_card_obj cc) in
  let gh := somes (map Display.to_card_obj gc) in
  let b := somes (map Display.to_card_obj bc) in
  ((cc = [] \/ gc = [] \/ bc = []) -> d = "High Card"%string)
  /\ (d = "High Card"%string
      \/ d = "by fold or insufficient cards"%string
      \/ d = "by stack comparison"%string
      \/ (exists r, ev ch b = Some r /\ ev gh b = Some r
                    /\ d = ("Tie with " ++ Display.get_hand_rank_name r)%string)
      \/ (exists rw rl, rl < rw
           /\ Display.hand_category rl <= Display.hand_category rw
           /\ d = (Display.get_hand_rank_name rw ++ " beats "
                   ++ Display.get_hand_rank_name rl)%string
           /\ ((ev ch b = Some rw /\ ev gh b = Some rl)
               \/ (ev ch b = Some rl /\ ev gh b = Some rw)))).
Proof.
  intros d ch gh b. split.
  - intros H. unfold d.
    destruct cc as [|c1 cc'], gc as [|g1 gc'], bc as [|b1 bc']; try reflexivity.
    exfalso. destruct H as [H|[H|H]]; discriminate.
  - unfold d.
    destruct cc as [|c1 cc']; [left; reflexivity|].
    destruct gc as [|g1 gc']; [left; reflexivity|].
    destruct bc as [|b1 bc']; [left; reflexivity|].
    unfold Display.winning_hand_detail. fold ch gh b.
    destruct (_ && _ && _); [|right; left; reflexivity].
    destruct (ev ch b) as [r1|] eqn:E1; [|right; right; left; reflexivity].
    destruct (ev gh b) as [r2|] eqn:E2; [|right; right; left; reflexivity].
    cbv zeta.
    destruct (r1 >? r2) eqn:G1.
    + right; right; right; right. exists r1, r2.
      apply Z.gtb_lt in G1. split; [lia|]. split; [apply hand_category_mono; lia|].
      split; [reflexivity|]. left; split; reflexivity.
    + destruct (r2 >? r1) eqn:G2.
      * right; right; right; right. exists r2, r1.
        apply Z.gtb_lt in G2. split; [lia|]. split; [apply hand_category_mono; lia|].
        split; [reflexivity|]. right; split; reflexivity.
      * right; right; right; left. exists r1.
        rewrite Z.gtb_ltb, Z.ltb_ge in G1, G2.
        replace r2 with r1 by lia. split; [reflexivity|]. split; reflexivity.
Qed.

Lemma winning_hand_detail_cases_witness :
  Display.winning_hand_detail (fun _ _ => None) [] [] [] = "High Card"%string.
Proof.
  exact (proj1 (winning_hand_detail_cases (fun _ _ => None) [] [] []) (or_introl eq_refl)).
Defined.

Lemma take_digits_nonneg (acc : Z) (l : list ascii) :
  0 <= acc -> 0 <= take_digits acc l.
Proof.
  revert acc. induction l as [|c r IH]; intros acc H; simpl; [exact H|].
  destruct (is_digit c) eqn:D; [|exact H].
  apply IH. unfold is_digit in D. apply andb_prop in D as [D _].
  apply Nat.leb_le in D. unfold digit_val. lia.
Qed.

Lemma first_number_nonneg (l : list ascii) (n : Z) :
  first_number l = Some n -> 0 <= n.
Proof.
  induction l as [|c r IH]; cbn [first_number]; [discriminate|].
  destruct (is_digit c); [|exact IH].
  intros H. pose proof (take_digits_nonneg 0 (c :: r) ltac:(lia)). congruence.
Qed.

(** Extra: the amount [parse_ai_decision] returns is never negative
    (a minus sign is not part of [\d+]), and it is 0 unless the action
    is a raise. *)
Theorem parse_ai_decision_amount (response_text : string) :
  0 <= snd (parse_ai_decision response_text)
  /\ (fst (parse_ai_decision response_text) <> ARaise ->
      snd (parse_ai_decision response_text) = 0).
Proof.
  unfold parse_ai_decision.
  set (t := py_strip (py_lower (lit response_text))).
  destruct (has "fold" t); [split; [simpl; lia|reflexivity]|].
  destruct (has "call" t); [split; [simpl; lia|reflexivity]|].
  destruct (has "raise" t || has "bet" t).
  - destruct (first_number t) as [n|] eqn:E; simpl.
    + split; [exact (first_number_nonneg t n E)|]. intros H; contradiction H; reflexivity.
    + split; [lia|]. intros H; contradiction H; reflexivity.
  - split; [simpl; lia|reflexivity].
Qed.

Lemma parse_ai_decision_amount_witness :
  snd (parse_ai_decision "I will call the bet") = 0.
Proof.
  apply (proj2 (parse_ai_decision_amount "I will call the bet")).
  vm_compute. discriminate.
Defined.

Lemma win_probabilities_body_sampling (ev : Evaluator) (draw : Sampler)
    (claude gpt community : list pystr) :
  List.length (recognized claude) = 2%nat ->
  List.length (recognized gpt) = 2%nat ->
  (List.length (recognized community) < 5)%nat ->
  win_probabilities_body ev draw claude gpt community =
    match simulate ev draw (recognized claude) (recognized gpt) (recognized community)
            (Display.deck_of (recognized claude ++ recognized gpt ++ recognized community))
            (5 - Z.of_nat (List.length (recognized community)))%Z
            (seq 0 simulations) (0, 0, 0)%nat with
    | Some (cw, gw, ties) =>
        Some (py_round1 (percentage cw ties), py_round1 (percentage gw ties))
    | None => None
    end.
Proof.
  intros Hc Hg Hb.
  assert (Hn : (5 - Z.of_nat (List.length (recognized community)) =? 0)%Z = false).
  { apply Z.eqb_neq. lia. }
  unfold win_probabilities_body.
  destruct claude as [|c cl]; [discriminate Hc|].
  destruct gpt as [|g gl]; [discriminate Hg|].
  cbv beta iota zeta. rewrite Hc, Hg, Hn. reflexivity.
Qed.

Lemma filter_partition_length {A} (f : A -> bool) (l : list A) :
  (List.length (filter f l) + List.length (filter (fun x => negb (f x)) l) = List.length l)%nat.
Proof.
  induction l as [|x l IH]; simpl; [reflexivity|].
  destruct (f x); simpl; lia.
Qed.

Lemma all_cards_52_NoDup : NoDup all_cards_52.
Proof.
  unfold all_cards_52. simpl.
  repeat (constructor; [simpl; intuition discriminate|]). constructor.
Qed.

Lemma existsb_card_eqb_In (c : Card) (used : list Card) :
  existsb (card_eqb c) used = true -> In c used.
Proof.
  intros H. apply existsb_exists in H as [y [Hy E]].
  apply card_eqb_eq in E. subst. exact Hy.
Qed.

(** The deck keeps every card of the 52 that is not among the used ones. *)
Lemma deck_of_length (used : list Card) :
  (52 <= List.length (Display.deck_of used) + List.length used)%nat.
Proof.
  unfold Display.deck_of.
  pose proof (filter_partition_length (fun c => existsb (card_eqb c) used) all_cards_52) as E.
  change (List.length all_cards_52) with 52%nat in E.
  assert (List.length (filter (fun c => existsb (card_eqb c) used) all_cards_52)
          <= List.length used)%nat.
  { apply NoDup_incl_length.
    - apply NoDup_filter, all_cards_52_NoDup.
    - intros c Hc. apply filter_In in Hc as [_ Hc]. apply existsb_card_eqb_In, Hc. }
  lia.
Qed.

Lemma simulate_some (ev : Evaluator) (draw : Sampler)
    (ch gh board deck : list Card) (k : Z) (iterations : list nat) (acc : Tally) :
  (forall h b, ev h b <> None) ->
  (0 <= k <= Z.of_nat (List.length deck))%Z ->
  simulate ev draw ch gh board deck k iterations acc <> None.
Proof.
  intros Hev Hk. revert acc.
  induction iterations as [|i rest IH]; intros [[cw gw] ties]; simpl; [discriminate|].
  unfold simulate_once, random_sample.
  rewrite (proj2 (Z.leb_le 0 k)), (proj2 (Z.leb_le k _)) by lia. simpl.
  destruct (ev ch (board ++ draw i deck k)) as [x|] eqn:E1; [|exfalso; exact (Hev _ _ E1)].
  destruct (ev gh (board ++ draw i deck k)) as [y|] eqn:E2; [|exfalso; exact (Hev _ _ E2)].
  apply IH.
Qed.

(** Extra: with two recognized hole cards for each player, fewer than five
    recognized board cards and an evaluator that never raises, the
    sampling of [calculate_win_probabilities] never raises: the deck keeps
    at least 44 cards, so [random.sample] always gets a valid count, and
    the 50/50 fallback of the [except] is never taken. *)
Theorem win_probabilities_sampling_total (ev : Evaluator) (draw : Sampler)
    (claude gpt community : list pystr) :
  List.length (recognized claude) = 2%nat ->
  List.length (recognized gpt) = 2%nat ->
  (List.length (recognized community) < 5)%nat ->
  (forall h b, ev h b <> None) ->
  (44 <= List.length (Display.deck_of (recognized claude ++ recognized gpt
                                        ++ recognized community)))%nat
  /\ win_probabilities_body ev draw claude gpt community <> None.
Proof.
  intros Hc Hg Hb Hev.
  pose proof (deck_of_length (recognized claude ++ recognized gpt ++ recognized community)) as Hd.
  rewrite !length_app in Hd.
  split; [lia|].
  rewrite win_probabilities_body_sampling by assumption.
  destruct (simulate _ _ _ _ _ _ _ _ _) as [[[cw gw] ties]|] eqn:Hs; [discriminate|].
  exfalso. revert Hs. apply simulate_some; [exact Hev|]. lia.
Qed.

Lemma win_probabilities_sampling_total_witness :
  win_probabilities_body (fun _ _ => Some 0) (fun _ _ _ => [])
    [u "A" ++ [SPADE]; u "K" ++ [SPADE]] [u "Q" ++ [HEART]; u "J" ++ [HEART]] [] <> None.
Proof.
  apply (win_probabilities_sampling_total (fun _ _ => Some 0) (fun _ _ _ => [])
           [u "A" ++ [SPADE]; u "K" ++ [SPADE]] [u "Q" ++ [HEART]; u "J" ++ [HEART]] []);
    [vm_compute; reflexivity | vm_compute; reflexivity | simpl; lia | discriminate].
Defined.

(** ** Match lifecycle across hands and loop passes *)

Import GameLoop.

(** The three ways a hand ends: a pre-hand bust, an engine exception, or a
    settled hand. *)
Lemma play_paths (engine : Engine) (s : GameState) :
  (exists p bb, play_poker_hand engine s = bust_before_hand p bb (begin_hand s))
  \/ (exists r, play_poker_hand engine s = set_round RError (observe_run r (begin_hand s)))
  \/ (exists m f r, play_poker_hand engine s = after_engine m f (observe_run r (begin_hand s))).
Proof.
  unfold play_poker_hand.
  destruct (blinds (hand_number (begin_hand s))) as [[lvl sb] bb].
  case_if; [left; eauto|].
  case_if; [left; eauto|].
  destruct (run_result _) as [f|] eqn:E; [right; right; eauto | right; left; eauto].
Qed.

Lemma fold_with_countdown_game (xs : list Z) (l : LoopState) :
  game (fold_left (fun l i => with_countdown i l) xs l) = game l
  /\ is_playing (fold_left (fun l i => with_countdown i l) xs l) = is_playing l.
Proof.
  revert l. induction xs as [|x xs IH]; intros l; [split; reflexivity|].
  exact (IH (with_countdown x l)).
Qed.

Lemma fold_with_hand_countdown_game (xs : list Z) (l : LoopState) :
  game (fold_left (fun l i => with_hand_countdown i l) xs l) = game l
  /\ is_playing (fold_left (fun l i => with_hand_countdown i l) xs l) = is_playing l
  /\ countdown (fold_left (fun l i => with_hand_countdown i l) xs l) = countdown l.
Proof.
  revert l. induction xs as [|x xs IH]; intros l; [repeat split|].
  exact (IH (with_hand_countdown x l)).
Qed.

(** What a pass does to the game state and the loop's own entries. *)
Lemma loop_pass_parts (engine : Engine) (l : LoopState) :
  is_playing l = true ->
  game (loop_pass engine l)
    = set_round RHandPause
        (play_poker_hand engine
           (if wait_for_new_game (game l)
            then set_wait false (set_round RCountdown (game l)) else game l))
  /\ is_playing (loop_pass engine l) = true
  /\ countdown (loop_pass engine l) = 0
  /\ hand_countdown (loop_pass engine l) = 0.
Proof.
  intros Hp. unfold loop_pass, countdown_range. rewrite Hp.
  destruct (wait_for_new_game (game l));
    cbn -[play_poker_hand set_round set_wait]; rewrite ?Hp; repeat split.
Qed.

Lemma loop_pass_stopped (engine : Engine) (l : LoopState) :
  is_playing l = false -> loop_pass engine l = l.
Proof. intros H. unfold loop_pass. rewrite H. reflexivity. Qed.

(** A property of the game state kept by every hand and by the loop's own
    writes holds in every state the server goes through. *)
Lemma reachable_invariant (P : GameState -> Prop) :
  P initial_state ->
  (forall e s, P s -> P (play_poker_hand e s)) ->
  (forall r s, P s -> P (set_round r s)) ->
  (forall b s, P s -> P (set_wait b s)) ->
  forall l, reachable l -> P (game l).
Proof.
  intros H0 Hplay Hround Hwait l R. induction R as [|e l R IH|l R IH|l R IH].
  - exact H0.
  - destruct (is_playing l) eqn:Hp.
    + rewrite (proj1 (loop_pass_parts e l Hp)). apply Hround, Hplay.
      destruct (wait_for_new_game (game l)); [apply Hwait, Hround|]; exact IH.
    + rewrite loop_pass_stopped by exact Hp. exact IH.
  - apply Hwait, IH.
  - exact IH.
Qed.

Lemma fold_max_ge (l : list Z) (a : Z) : a <= fold_left Z.max l a.
Proof.
  revert a. induction l as [|x l IH]; intros a; simpl; [lia|].
  specialize (IH (Z.max a x)). lia.
Qed.

Lemma pots_step (engine : Engine) (s : GameState) :
  biggest_pot s = fold_left Z.max (game_pots s) 0 /\ Forall (fun p => 0 < p) (game_pots s) ->
  let s' := play_poker_hand engine s in
  biggest_pot s' = fold_left Z.max (game_pots s') 0 /\ Forall (fun p => 0 < p) (game_pots s').
Proof.
  intros [H1 H2] s'. unfold s'.
  destruct (play_paths engine s) as [[p [bb ->]]|[[r ->]|[m [f [r ->]]]]].
  - unfold bust_before_hand, track_game_length. case_if; simpl; split; auto.
  - simpl. auto.
  - unfold after_engine, check_game_over. case_if.
    + unfold track_game_length. case_if; simpl; split; auto.
    + simpl. pose proof (fold_max_ge (game_pots s) 0) as G.
      destruct (run_pot r >? 0) eqn:P0.
      * apply Z.gtb_lt in P0. rewrite fold_left_app. simpl. rewrite <- H1.
        split; [|apply Forall_app; split; auto].
        destruct (run_pot r >? biggest_pot s) eqn:P1;
          [apply Z.gtb_lt in P1 | rewrite Z.gtb_ltb, Z.ltb_ge in P1]; lia.
      * rewrite Z.gtb_ltb, Z.ltb_ge in P0.
        rewrite Z.gtb_ltb, (proj2 (Z.ltb_ge _ _)) by lia.
        split; auto.
Qed.

(** Extra: in every state the server goes through, the biggest pot of the
    current match is the maximum of the recorded pots of the match (0 when
    there is none), and every recorded pot is positive. *)
Theorem biggest_pot_is_max (l : LoopState) :
  reachable l ->
  biggest_pot (game l) = fold_left Z.max (game_pots (game l)) 0
  /\ Forall (fun p => 0 < p) (game_pots (game l)).
Proof.
  apply (reachable_invariant
           (fun s => biggest_pot s = fold_left Z.max (game_pots s) 0
                     /\ Forall (fun p => 0 < p) (game_pots s))).
  - split; [reflexivity | constructor].
  - intros e s H. exact (pots_step e s H).
  - intros r s H. exact H.
  - intros b s H. exact H.
Qed.

Lemma biggest_pot_is_max_witness :
  let l := loop_pass (fun _ _ => {| run_pot := 40; run_allins := 0;
                                    run_result := Some (1020, 980) |})
                     (start_game initial_loop) in
  biggest_pot (game l) = 40 /\ game_pots (game l) = [40].
Proof.
  intros l.
  assert (R : reachable l) by (apply reach_pass, reach_start, reach_init).
  destruct (biggest_pot_is_max l R) as [H1 H2].
  assert (E : game_pots (game l) = [40]) by (vm_compute; reflexivity).
  rewrite H1, E. split; reflexivity.
Defined.












Lemma track_game_length_lengths (s : GameState) :
  (shortest_game s = 0 /\ longest_game s = 0) \/ (0 < shortest_game s <= longest_game s) ->
  let t := track_game_length s in
  (shortest_game t = 0 /\ longest_game t = 0) \/ (0 < shortest_game t <= longest_game t).
Proof.
  intros H t. unfold t, track_game_length.
  destruct (0 <? current_game_hands s) eqn:N; [|exact H].
  apply Z.ltb_lt in N. simpl. right.
  destruct H as [[A B]|[A B]].
  - rewrite A, B. simpl. lia.
  - rewrite (proj2 (Z.eqb_neq (shortest_game s) 0)), (proj2 (Z.eqb_neq (longest_game s) 0))
      by lia. simpl.
    destruct (current_game_hands s >? longest_game s) eqn:G1;
      [apply Z.gtb_lt in G1 | rewrite Z.gtb_ltb, Z.ltb_ge in G1];
    (destruct (current_game_hands s <? shortest_game s) eqn:G2;
      [apply Z.ltb_lt in G2 | apply Z.ltb_ge in G2]); lia.
Qed.

Lemma bust_lengths p bb (x : GameState) :
  (shortest_game x = 0 /\ longest_game x = 0) \/ (0 < shortest_game x <= longest_game x) ->
  let x' := bust_before_hand p bb x in
  (shortest_game x' = 0 /\ longest_game x' = 0) \/ (0 < shortest_game x' <= longest_game x').
Proof.
  intros H x'. exact (track_game_length_lengths
             (credit_game (other p)
                (set_stack p 0 (add_log (LogBusted p (stack_of p x) bb) x))) H).
Qed.

Lemma check_game_over_lengths (y : GameState) :
  (shortest_game y = 0 /\ longest_game y = 0) \/ (0 < shortest_game y <= longest_game y) ->
  let y' := check_game_over y in
  (shortest_game y' = 0 /\ longest_game y' = 0) \/ (0 < shortest_game y' <= longest_game y').
Proof.
  intros H y'. unfold y', check_game_over. case_if; [|exact H].
  exact (track_game_length_lengths (credit_game (if claude_stack y >? 0 then Claude else GPT) y) H).
Qed.

Lemma after_lengths m f r (x : GameState) :
  (shortest_game x = 0 /\ longest_game x = 0) \/ (0 < shortest_game x <= longest_game x) ->
  let x' := after_engine m f (observe_run r x) in
  (shortest_game x' = 0 /\ longest_game x' = 0) \/ (0 < shortest_game x' <= longest_game x').
Proof.
  intros H x'. unfold x', after_engine. apply check_game_over_lengths. exact H.
Qed.

Lemma game_length_step (engine : Engine) (s : GameState) :
  (shortest_game s = 0 /\ longest_game s = 0) \/ (0 < shortest_game s <= longest_game s) ->
  let s' := play_poker_hand engine s in
  (shortest_game s' = 0 /\ longest_game s' = 0) \/ (0 < shortest_game s' <= longest_game s').
Proof.
  intros H s'. unfold s'.
  destruct (play_paths engine s) as [[p [bb ->]]|[[r ->]|[m [f [r ->]]]]].
  - apply bust_lengths. exact H.
  - exact H.
  - apply after_lengths. exact H.
Qed.

(** Extra: in every state the server goes through, the shortest and the
    longest finished match are both 0 (no match has ended yet) or
    0 < shortest <= longest. *)
Theorem game_length_stats_ordered (l : LoopState) :
  reachable l ->
  (shortest_game (game l) = 0 /\ longest_game (game l) = 0)
  \/ (0 < shortest_game (game l) <= longest_game (game l)).
Proof.
  apply (reachable_invariant
           (fun s => (shortest_game s = 0 /\ longest_game s = 0)
                     \/ (0 < shortest_game s <= longest_game s))).
  - left; split; reflexivity.
  - intros e s H. exact (game_length_step e s H).
  - intros r s H. exact H.
  - intros b s H. exact H.
Qed.

Lemma game_length_stats_ordered_witness :
  let l := loop_pass (fun _ _ => {| run_pot := 2000; run_allins := 1;
                                    run_result := Some (2000, 0) |})
                     (start_game initial_loop) in
  0 < shortest_game (game l) <= longest_game (game l).
Proof.
  intros l.
  destruct (game_length_stats_ordered l (reach_pass _ _ (reach_start _ reach_init)))
    as [[A _]|H]; [vm_compute in A; discriminate A | exact H].
Defined.




Lemma bust_before_hand_dealer_wait (p : Seat) (bb : Z) (x : GameState) :
  dealer (bust_before_hand p bb x) = dealer x
  /\ wait_for_new_game (bust_before_hand p bb x) = true.
Proof. unfold bust_before_hand, track_game_length. case_if; split; reflexivity. Qed.

Lemma check_game_over_dealer_wait (y : GameState) :
  dealer (check_game_over y) = dealer y
  /\ ((check_game_over y = y)
      \/ (wait_for_new_game (check_game_over y) = true
          /\ claude_games_won (check_game_over y) + gpt_games_won (check_game_over y)
             = claude_games_won y + gpt_games_won y + 1)).
Proof.
  unfold check_game_over. case_if; [|split; [reflexivity | left; reflexivity]].
  unfold track_game_length.
  destruct (claude_stack y >? 0); case_if; cbn; (split; [reflexivity | right; split; [reflexivity | lia]]).
Qed.

Lemma after_engine_dealer_wait (m : Z) (f : Z * Z) (x : GameState) :
  dealer (after_engine m f x) = dealer x
  /\ ((wait_for_new_game (after_engine m f x) = wait_for_new_game x
       /\ claude_games_won (after_engine m f x) = claude_games_won x
       /\ gpt_games_won (after_engine m f x) = gpt_games_won x)
      \/ (wait_for_new_game (after_engine m f x) = true
          /\ claude_games_won (after_engine m f x) + gpt_games_won (after_engine m f x)
             = claude_games_won x + gpt_games_won x + 1)).
Proof.
  unfold after_engine.
  destruct (check_game_over_dealer_wait
              (record_history (record_winner (record_pots (settle m f x))))) as [D [E|E]].
  - split; [exact D|]. left. rewrite E. repeat split.
  - split; [exact D|]. right. exact E.
Qed.

(** A hand advances the hand number by one, passes the button, and either
    keeps the wait flag and the game-win counters or ends the match: wait
    flag set and one more game won. *)
Lemma play_poker_hand_frame (engine : Engine) (s : GameState) :
  let s' := play_poker_hand engine s in
  hand_number s' = hand_number s + 1
  /\ dealer s' = other (dealer s)
  /\ ((wait_for_new_game s' = wait_for_new_game s
       /\ claude_games_won s' = claude_games_won s
       /\ gpt_games_won s' = gpt_games_won s)
      \/ (wait_for_new_game s' = true
          /\ claude_games_won s' + gpt_games_won s'
             = claude_games_won s + gpt_games_won s + 1)).
Proof.
  intros s'. unfold s'.
  destruct (play_paths engine s) as [[p [bb ->]]|[[r ->]|[m [f [r ->]]]]].
  - destruct (bust_before_hand_frame p bb (begin_hand s)) as [A [_ [C D]]].
    destruct (bust_before_hand_dealer_wait p bb (begin_hand s)) as [Dl W].
    rewrite A, Dl. split; [reflexivity|]. split; [reflexivity|].
    right. split; [exact W|]. rewrite C, D. destruct p; cbn; lia.
  - split; [reflexivity|]. split; [reflexivity|]. left. repeat split.
  - destruct (after_engine_frame m f (observe_run r (begin_hand s))) as [A _].
    destruct (after_engine_dealer_wait m f (observe_run r (begin_hand s))) as [Dl W].
    rewrite A, Dl. split; [reflexivity|]. split; [reflexivity|].
    exact W.
Qed.

(** Extra: a pass of [game_loop] while the game is stopped changes
    nothing; while it is playing, it runs the countdown if a new game is
    awaited, plays exactly one hand (hand number + 1, button passed to the
    other seat) and ends in the [hand_pause] round with both countdowns at
    0, still playing; afterwards the wait flag is set exactly when that
    hand ended the match, with one more game won. *)
Theorem loop_pass_effect (engine : Engine) (l : LoopState) :
  (is_playing l = false -> loop_pass engine l = l)
  /\ (is_playing l = true ->
      let l' := loop_pass engine l in
      is_playing l' = true /\ countdown l' = 0 /\ hand_countdown l' = 0
      /\ round (game l') = RHandPause
      /\ hand_number (game l') = hand_number (game l) + 1
      /\ dealer (game l') = other (dealer (game l))
      /\ ((wait_for_new_game (game l') = false
           /\ claude_games_won (game l') = claude_games_won (game l)
           /\ gpt_games_won (game l') = gpt_games_won (game l))
          \/ (wait_for_new_game (game l') = true
              /\ claude_games_won (game l') + gpt_games_won (game l')
                 = claude_games_won (game l) + gpt_games_won (game l) + 1))).
Proof.
  split; [apply loop_pass_stopped|].
  intros Hp l'. unfold l'.
  destruct (loop_pass_parts engine l Hp) as [G [P [C H]]].
  rewrite G, P, C, H.
  set (g0 := if wait_for_new_game (game l)
             then set_wait false (set_round RCountdown (game l)) else game l).
  assert (Hg0 : hand_number g0 = hand_number (game l) /\ dealer g0 = dealer (game l)
                /\ wait_for_new_game g0 = false
                /\ claude_games_won g0 = claude_games_won (game l)
                /\ gpt_games_won g0 = gpt_games_won (game l)).
  { unfold g0. destruct (wait_for_new_game (game l)) eqn:W; repeat split; exact W. }
  destruct Hg0 as [N0 [D0 [W0 [C0 G0]]]].
  destruct (play_poker_hand_frame engine g0) as [N [D W]].
  cbn [round hand_number dealer wait_for_new_game claude_games_won gpt_games_won set_round].
  rewrite N, D, N0, D0.
  split; [reflexivity|]. split; [reflexivity|]. split; [reflexivity|].
  split; [reflexivity|]. split; [reflexivity|]. split; [reflexivity|].
  destruct W as [[W1 [W2 W3]]|[W1 W2]].
  - left. rewrite W1, W2, W3, W0, C0, G0. repeat split.
  - right. rewrite W1, W2, C0, G0. split; reflexivity.
Qed.

Lemma loop_pass_effect_witness :
  let e : Engine := fun _ _ => {| run_pot := 20; run_allins := 0;
                                  run_result := Some (1010, 990) |} in
  hand_number (game (loop_pass e (start_game initial_loop))) = 1.
Proof.
  intros e.
  destruct (proj2 (loop_pass_effect e (start_game initial_loop)) eq_refl)
    as [_ [_ [_ [_ [N _]]]]].
  rewrite N. reflexivity.
Defined.

Lemma loop_passes_stopped (engines : list Engine) (l : LoopState) :
  is_playing l = false -> loop_passes engines l = l.
Proof.
  revert l. induction engines as [|e es IH]; intros l H; [reflexivity|].
  unfold loop_passes. simpl fold_left. rewrite loop_pass_stopped by exact H.
  apply IH, H.
Qed.

Lemma loop_passes_playing (engines : list Engine) (l : LoopState) :
  is_playing l = true ->
  is_playing (loop_passes engines l) = true
  /\ hand_number (game (loop_passes engines l))
     = hand_number (game l) + Z.of_nat (List.length engines).
Proof.
  revert l. induction engines as [|e es IH]; intros l H.
  - split; [exact H | cbn; lia].
  - unfold loop_passes. simpl fold_left.
    destruct (loop_pass_parts e l H) as [G [P _]].
    destruct (IH (loop_pass e l) P) as [P' N']. unfold loop_passes in P', N'.
    split; [exact P'|]. rewrite N', G.
    set (g0 := if wait_for_new_game (game l)
               then set_wait false (set_round RCountdown (game l)) else game l).
    assert (N0 : hand_number g0 = hand_number (game l))
      by (unfold g0; destruct (wait_for_new_game (game l)); reflexivity).
    destruct (play_poker_hand_frame e g0) as [N _].
    cbn [hand_number set_round]. rewrite N, N0. cbn [List.length]. lia.
Qed.

(** Extra: after [stop_game], any number of loop passes leave the whole
    state unchanged (no hand is played); after [start_game], every pass
    plays exactly one hand and the game stays on. *)
Theorem stop_start_passes (engines : list Engine) (l : LoopState) :
  loop_passes engines (stop_game l) = stop_game l
  /\ is_playing (loop_passes engines (start_game l)) = true
  /\ hand_number (game (loop_passes engines (start_game l)))
     = hand_number (game l) + Z.of_nat (List.length engines).
Proof.
  split; [apply loop_passes_stopped; reflexivity|].
  exact (loop_passes_playing engines (start_game l) eq_refl).
Qed.

Lemma check_game_over_kept (y : GameState) :
  claude_games_won (check_game_over y) = claude_games_won y ->
  gpt_games_won (check_game_over y) = gpt_games_won y ->
  check_game_over y = y.
Proof.
  unfold check_game_over. case_if; [|reflexivity].
  unfold track_game_length.
  destruct (claude_stack y >? 0); case_if; cbn; lia.
Qed.

Lemma record_history_newest (y : GameState) :
  let y' := record_history y in
  hd_error (hand_history y')
    = Some {| hr_hand_number := hand_number y'; hr_winner := winner y'; hr_pot := pot y' |}
  /\ hd_error (rev (stack_history y'))
    = Some {| sp_hand := hand_number y'; sp_claude := claude_stack y';
              sp_gpt := gpt_stack y' |}.
Proof.
  intros y'. unfold y', record_history. cbn [hand_history stack_history hand_number winner
                                              pot claude_stack gpt_stack].
  split.
  - destruct (Nat.ltb 5 _) eqn:L; [|reflexivity].
    destruct (hand_history y) as [|h t]; [discriminate L|]. reflexivity.
  - destruct (Nat.ltb 10 _) eqn:L.
    + destruct (stack_history y) as [|h t]; [discriminate L|].
      cbn [app tl]. rewrite rev_app_distr. reflexivity.
    + rewrite rev_app_distr. reflexivity.
Qed.

(** Extra: after a hand that reached the engine, got its final stacks
    back and did not end the match, the newest hand-history entry records
    that hand's number, winner and pot, and the newest stack-history entry
    its number and the two stacks after the hand. *)
Theorem settled_hand_recorded (engine : Engine) (s : GameState) (f : Z * Z) :
  big_blind_of (hand_number s + 1) <= claude_stack s ->
  big_blind_of (hand_number s + 1) <= gpt_stack s ->
  run_result (engine (Z.min (claude_stack s) (gpt_stack s))
                     (small_blind_of (hand_number s + 1))) = Some f ->
  let s' := play_poker_hand engine s in
  claude_games_won s' = claude_games_won s ->
  gpt_games_won s' = gpt_games_won s ->
  hd_error (hand_history s')
    = Some {| hr_hand_number := hand_number s'; hr_winner := winner s'; hr_pot := pot s' |}
  /\ hd_error (rev (stack_history s'))
    = Some {| sp_hand := hand_number s'; sp_claude := claude_stack s';
              sp_gpt := gpt_stack s' |}.
Proof.
  intros Hc Hg Hr s'. unfold s'.
  rewrite (play_poker_hand_engine engine s f Hc Hg Hr).
  unfold after_engine.
  set (y := record_history (record_winner (record_pots
              (settle (Z.min (claude_stack s) (gpt_stack s)) f (engine_state engine s))))).
  assert (Ey : claude_games_won y = claude_games_won s /\ gpt_games_won y = gpt_games_won s)
    by (split; reflexivity).
  destruct Ey as [E1 E2].
  intros C G. rewrite check_game_over_kept by congruence.
  apply record_history_newest.
Qed.

Lemma settled_hand_recorded_witness :
  let e : Engine := fun _ _ => {| run_pot := 40; run_allins := 0;
                                  run_result := Some (1020, 980) |} in
  hd_error (hand_history (play_poker_hand e initial_state))
  = Some {| hr_hand_number := 1; hr_winner := Some Claude; hr_pot := 40 |}.
Proof.
  intros e.
  destruct (settled_hand_recorded e initial_state (1020, 980)) as [H _];
    [vm_compute; discriminate | vm_compute; discriminate | reflexivity
    | vm_compute; reflexivity | vm_compute; reflexivity |].
  rewrite H. vm_compute. reflexivity.
Defined.
